(** * Indian Market News Aggregator: the mock article generator

    A shallow embedding of [keta.new.py]: the module constants
    [MARKET_SEGMENTS] and [TIMEFRAME_OPTIONS], the body of
    [fetch_mock_news] and the "Main Content Display" block that sorts the
    generated articles by date before rendering them.

    Python values are modelled as follows.
    - [str] is [string]; every literal of the program is ASCII.
    - [int] is [Z].
    - [datetime.date] is its proleptic Gregorian ordinal (a [Z] between 1 and
      [_MAXORDINAL]); [date + timedelta] raises [OverflowError] outside that
      range, as the standard library does.
    - an exception is a value of [exn] carried by [result].
    - the dict [MARKET_SEGMENTS] is an association list in insertion order
      (the sidebar shows its keys in that order).
    - [datetime.date.today()] reads a [Clock] that every call receives.

    [fetch_mock_news] below is the function the [def] statement defines.
    The decorator [st.cache_data(ttl=3600)] that wraps it replays, for one
    hour, the list an earlier call with the same arguments returned. *)

From Stdlib Require Import ZArith List Bool Ascii String Lia.
From Stdlib Require Import Sorting.Permutation Sorting.Sorted.
Import ListNotations.

Local Open Scope string_scope.
Local Open Scope Z_scope.

(** ** Exceptions *)

Inductive exn : Type :=
| KeyError (key : string)
| OverflowError
| ValueError
| OutOfBoundsDatetime.

Inductive result (A : Type) : Type :=
| Ok (a : A)
| Raise (e : exn).

Arguments Ok {A} a.
Arguments Raise {A} e.

Definition bind {A B : Type} (m : result A) (k : A -> result B) : result B :=
  match m with
  | Ok a => k a
  | Raise e => Raise e
  end.

Notation "x <- m ;; k" := (bind m (fun x => k))
  (at level 61, m at next level, right associativity).

(** ** The calendar of [datetime.date] *)

(** The helpers of the standard library's [datetime] module that stand
    behind [date.today() - timedelta(days=n)], [date + timedelta(days=n)]
    and [strftime], under the names they have there. *)
Module Calendar.

Definition MINYEAR : Z := 1.
Definition MAXYEAR : Z := 9999.

Definition _is_leap (year : Z) : bool :=
  (year mod 4 =? 0) && (negb (year mod 100 =? 0) || (year mod 400 =? 0)).

Definition _days_before_year (year : Z) : Z :=
  let y := year - 1 in
  y * 365 + y / 4 - y / 100 + y / 400.

Definition _DAYS_IN_MONTH (month : Z) : Z :=
  match month with
  | 1 => 31 | 2 => 28 | 3 => 31 | 4 => 30 | 5 => 31 | 6 => 30
  | 7 => 31 | 8 => 31 | 9 => 30 | 10 => 31 | 11 => 30 | 12 => 31
  | _ => -1
  end.

Definition _DAYS_BEFORE_MONTH (month : Z) : Z :=
  match month with
  | 1 => 0 | 2 => 31 | 3 => 59 | 4 => 90 | 5 => 120 | 6 => 151
  | 7 => 181 | 8 => 212 | 9 => 243 | 10 => 273 | 11 => 304 | 12 => 334
  | _ => -1
  end.

Definition _days_in_month (year month : Z) : Z :=
  if (month =? 2) && _is_leap year then 29 else _DAYS_IN_MONTH month.

Definition _days_before_month (year month : Z) : Z :=
  _DAYS_BEFORE_MONTH month + (if (2 <? month) && _is_leap year then 1 else 0).

Definition _ymd2ord (year month day : Z) : Z :=
  _days_before_year year + _days_before_month year month + day.

Definition _DI400Y : Z := Eval cbv in _days_before_year 401.
Definition _DI100Y : Z := Eval cbv in _days_before_year 101.
Definition _DI4Y : Z := Eval cbv in _days_before_year 5.

Definition _MAXORDINAL : Z := Eval cbv in _ymd2ord 9999 12 31.

(** Month and day of the [n]-th day (counted from 0) of a year. *)
Definition _month_day (leapyear : bool) (n : Z) : Z * Z :=
  let month := Z.shiftr (n + 50) 5 in
  let preceding :=
    _DAYS_BEFORE_MONTH month + (if (2 <? month) && leapyear then 1 else 0) in
  if n <? preceding then
    let month' := month - 1 in
    let preceding' :=
      preceding
      - (_DAYS_IN_MONTH month' + (if (month' =? 2) && leapyear then 1 else 0)) in
    (month', n - preceding' + 1)
  else (month, n - preceding + 1).

Definition _ord2ymd (ordinal : Z) : Z * Z * Z :=
  let n := ordinal - 1 in
  let n400 := n / _DI400Y in
  let n := n mod _DI400Y in
  let year := n400 * 400 + 1 in
  let n100 := n / _DI100Y in
  let n := n mod _DI100Y in
  let n4 := n / _DI4Y in
  let n := n mod _DI4Y in
  let n1 := n / 365 in
  let n := n mod 365 in
  let year := year + (n100 * 100 + n4 * 4 + n1) in
  if (n1 =? 4) || (n100 =? 4) then (year - 1, 12, 31)
  else
    let leapyear := (n1 =? 3) && (negb (n4 =? 24) || (n100 =? 3)) in
    let '(month, day) := _month_day leapyear n in
    (year, month, day).

(** [date(year, month, day)]: the constructor checks its fields. *)
Definition date (year month day : Z) : result Z :=
  if (MINYEAR <=? year) && (year <=? MAXYEAR)
     && (1 <=? month) && (month <=? 12)
     && (1 <=? day) && (day <=? _days_in_month year month)
  then Ok (_ymd2ord year month day)
  else Raise ValueError.

(** [date.__add__] with a [timedelta] of [days] days. *)
Definition date_add (d days : Z) : result Z :=
  let o := d + days in
  if (0 <? o) && (o <=? _MAXORDINAL) then Ok o else Raise OverflowError.

(** [date.__sub__] with a [timedelta]: adds the negated delta. *)
Definition date_sub (d days : Z) : result Z := date_add d (- days).

End Calendar.

(** ** The [str] methods the program calls *)

Module Str.

(** [s.split(sep)[0]]: the text before the first [sep]. *)
Fixpoint split_first (sep : ascii) (s : string) : string :=
  match s with
  | EmptyString => EmptyString
  | String c s' => if Ascii.eqb c sep then EmptyString
                   else String c (split_first sep s')
  end.

(** The ASCII characters [str.isspace] accepts. *)
Definition isspace (c : ascii) : bool :=
  let n := Z.of_nat (nat_of_ascii c) in
  ((9 <=? n) && (n <=? 13)) || ((28 <=? n) && (n <=? 32)).

Fixpoint lstrip (s : string) : string :=
  match s with
  | EmptyString => EmptyString
  | String c s' => if isspace c then lstrip s' else s
  end.

Fixpoint rstrip (s : string) : string :=
  match s with
  | EmptyString => EmptyString
  | String c s' =>
      match rstrip s' with
      | EmptyString => if isspace c then EmptyString else String c EmptyString
      | r => String c r
      end
  end.

Definition strip (s : string) : string := rstrip (lstrip s).

Fixpoint map (f : ascii -> ascii) (s : string) : string :=
  match s with
  | EmptyString => EmptyString
  | String c s' => String (f c) (map f s')
  end.

(** [s.replace(old, new)] for one-character [old] and [new]. *)
Definition replace (old new : ascii) (s : string) : string :=
  map (fun c => if Ascii.eqb c old then new else c) s.

(** [s.lower()] on ASCII text: only the letters A to Z change. *)
Definition lower_char (c : ascii) : ascii :=
  let n := nat_of_ascii c in
  if (65 <=? n)%nat && (n <=? 90)%nat then ascii_of_nat (n + 32) else c.

Definition lower (s : string) : string := map lower_char s.

Definition digit (d : Z) : ascii := ascii_of_nat (48 + Z.to_nat d).

(** Decimal digits of a positive number, most significant first; the
    fuel bounds the number of digits. *)
Fixpoint digits (fuel : nat) (n : Z) (acc : string) : string :=
  match fuel with
  | O => acc
  | S fuel' =>
      let acc' := String (digit (n mod 10)) acc in
      if n <? 10 then acc' else digits fuel' (n / 10) acc'
  end.

(** [str(n)], which is also what [f"{n}"] interpolates. *)
Definition of_int (n : Z) : string :=
  if n <? 0 then String "-" (digits (S (Z.to_nat (Z.log2 (- n)))) (- n) "")
  else digits (S (Z.to_nat (Z.log2 n))) n "".

(** A field of [strftime] that is two digits wide ([%m], [%d]). *)
Definition two_digits (n : Z) : string :=
  String (digit (n / 10)) (String (digit (n mod 10)) "").

(** The year field [%Y], four digits wide for the years of [date]. *)
Definition four_digits (n : Z) : string :=
  String (digit (n / 1000)) (String (digit (n / 100 mod 10))
    (String (digit (n / 10 mod 10)) (String (digit (n mod 10)) ""))).

Definition digit_value (c : ascii) : option Z :=
  let n := Z.of_nat (nat_of_ascii c) in
  if (48 <=? n) && (n <=? 57) then Some (n - 48) else None.

End Str.

(** [d.strftime("%Y-%m-%d")] *)
Definition strftime_Ymd (d : Z) : string :=
  let '(y, m, dd) := Calendar._ord2ymd d in
  Str.four_digits y ++ "-" ++ Str.two_digits m ++ "-" ++ Str.two_digits dd.

(** ** Module constants *)

Definition MARKET_SEGMENTS : list (string * string) :=
  [ ("Large Cap FNO", "Nifty 50, Sensex, Reliance, HDFC Bank, Large Cap FNO news");
    ("Mid Cap FNO", "Nifty Midcap 100, Midcap FNO news");
    ("Small Cap FNO", "Nifty Smallcap 100, Smallcap FNO news");
    ("All FNO", "Indian F&O market news, derivative segment") ].

Definition TIMEFRAME_OPTIONS : list string :=
  [ "Last One Week"; "Last One Month"; "Last Three Months" ].

(** [d[key]] on a dict with [str] keys. *)
Fixpoint dict_getitem (d : list (string * string)) (key : string) : result string :=
  match d with
  | [] => Raise (KeyError key)
  | (k, v) :: d' => if String.eqb k key then Ok v else dict_getitem d' key
  end.

Definition dict_keys (d : list (string * string)) : list string := List.map fst d.

(** [range(lo, hi)] *)
Definition range (lo hi : Z) : list Z :=
  List.map (fun k => lo + Z.of_nat k) (seq 0 (Z.to_nat (hi - lo))).

(** A [for] loop over a list whose body updates the loop state and may raise. *)
Fixpoint for_each {A S : Type} (l : list A) (body : A -> S -> result S) (s : S)
  : result S :=
  match l with
  | [] => Ok s
  | x :: l' => s' <- body x s ;; for_each l' body s'
  end.

(** ** The wall clock *)

(** The only thing the program reads from its environment is the local
    date, through [datetime.date.today()]. The clock holds that date and
    the time of day, which [today()] drops. *)
Record Clock : Type := {
  clock_date : Z;
  clock_seconds : Z
}.

Definition date_today (now : Clock) : Z := clock_date now.

(** ** [fetch_mock_news] *)

Record Article : Type := {
  title : string;
  source : string;
  date : string;
  summary : string;
  url : string
}.

Definition fetch_mock_news (now : Clock) (segment_key timeframe : string)
  : result (list Article) :=
  search_query <- dict_getitem MARKET_SEGMENTS segment_key ;;
  let today := date_today now in
  start_date <-
    (if String.eqb timeframe "Last One Week" then Calendar.date_sub today 7
     else if String.eqb timeframe "Last One Month" then Calendar.date_sub today 30
     else Calendar.date_sub today 90) ;;
  let num_articles := 5 in
  for_each (range 1 (num_articles + 1))
    (fun i articles =>
       article_date <- Calendar.date_add start_date (i * 5) ;;
       Ok (List.app articles
           [ {| title :=
                  "(" ++ segment_key ++ ") Market Update: "
                  ++ Str.strip (Str.split_first "," search_query)
                  ++ " Shows Volatility " ++ Str.of_int i;
                source := "Financial Times " ++ Str.of_int (i mod 3 + 1);
                date := strftime_Ymd article_date;
                summary :=
                  "Detailed analysis shows that " ++ segment_key
                  ++ " indices experienced a sharp rise followed by a consolidation phase over the "
                  ++ timeframe
                  ++ " period. Key drivers included FII activity and sector-specific policy changes. The outlook remains cautious.";
                url :=
                  "https://mock-news.com/"
                  ++ Str.lower (Str.replace " " "-" segment_key)
                  ++ "-" ++ Str.of_int i |} ]))
    [].

(** ** Sidebar and main content *)

(** The "date" column written by [fetch_mock_news] holds text of the shape
    YYYY-MM-DD. [parse_Ymd] reads that shape, and only that shape, back
    into a calendar date. *)
Definition parse_Ymd (s : string) : result Z :=
  match s with
  | String y1 (String y2 (String y3 (String y4 (String "-"
      (String m1 (String m2 (String "-" (String d1 (String d2 EmptyString))))))))) =>
      match Str.digit_value y1, Str.digit_value y2, Str.digit_value y3,
            Str.digit_value y4, Str.digit_value m1, Str.digit_value m2,
            Str.digit_value d1, Str.digit_value d2 with
      | Some a, Some b, Some c, Some d, Some e, Some f, Some g, Some h =>
          Calendar.date (1000 * a + 100 * b + 10 * c + d) (10 * e + f) (10 * g + h)
      | _, _, _, _, _, _, _, _ => Raise ValueError
      end
  | _ => Raise ValueError
  end.

(** A row of the data frame once its "date" column has been converted. *)
Record Row : Type := {
  row_title : string;
  row_source : string;
  row_date : Z;
  row_summary : string;
  row_url : string
}.

(** What the main content block hands to the page. *)
Inductive Display : Type :=
| Expanders (rows : list Row)
| NoNewsFound
| Blank.

Section MainContent.

(** The first and the last day a [pandas.Timestamp] can hold. They depend
    on the resolution pandas picks, so they are left open. *)
Variables Timestamp_min Timestamp_max : Z.

(** [pd.to_datetime] on one cell of the "date" column. *)
Definition to_datetime (s : string) : result Z :=
  d <- parse_Ymd s ;;
  if (Timestamp_min <=? d) && (d <=? Timestamp_max) then Ok d
  else Raise OutOfBoundsDatetime.

(** [df = pd.DataFrame(news_data); df['date'] = pd.to_datetime(df['date'])] *)
Definition to_frame (news_data : list Article) : result (list Row) :=
  for_each news_data
    (fun a rows =>
       d <- to_datetime (date a) ;;
       Ok (List.app rows
             [ {| row_title := title a; row_source := source a; row_date := d;
                  row_summary := summary a; row_url := url a |} ]))
    [].

(** [df.sort_values(by='date', ascending=False)], as an insertion sort that
    puts a row before the rows of the same date that followed it. *)
Fixpoint insert_desc (r : Row) (rows : list Row) : list Row :=
  match rows with
  | [] => [r]
  | h :: t => if row_date h <=? row_date r then r :: rows
              else h :: insert_desc r t
  end.

Definition sort_values_date_desc (rows : list Row) : list Row :=
  fold_right insert_desc [] rows.

(** The sidebar's two statements about [st.session_state.run_fetch]. *)
Definition sidebar_run_fetch (button : bool) (session : option bool) : option bool :=
  let session := if button then Some true else session in
  match session with
  | None => Some true
  | Some _ => session
  end.

(** The block under [if st.session_state.run_fetch:]. *)
Definition main_content (run_fetch : bool) (now : Clock)
    (selected_segment selected_timeframe : string) : result Display :=
  if run_fetch then
    news_data <- fetch_mock_news now selected_segment selected_timeframe ;;
    match news_data with
    | _ :: _ =>
        df <- to_frame news_data ;;
        Ok (Expanders (sort_values_date_desc df))
    | [] => Ok NoNewsFound
    end
  else Ok Blank.

End MainContent.

(** ** Vocabulary of the statements *)

(** The look-back of each timeframe label, as the specification tabulates it. *)
Definition offset_days (timeframe : string) : option Z :=
  if String.eqb timeframe "Last One Week" then Some 7
  else if String.eqb timeframe "Last One Month" then Some 30
  else if String.eqb timeframe "Last Three Months" then Some 90
  else None.

(** The first day of the year 1000. From that year to 9999 the [%Y] field
    of [strftime] is four digits wide on every platform. *)
Definition first_wide_year_day : Z := Eval cbv in Calendar._ymd2ord 1000 1 1.

(** The days on which every date a call computes lies between 1000-01-01
    and 9999-12-31, the last day of [datetime.date]. The generator looks at
    most 90 days back and, from a start at least 7 days back, 25 days ahead. *)
Definition today_in_range (now : Clock) : Prop :=
  first_wide_year_day + 90 <= date_today now
  /\ date_today now + 18 <= Calendar._MAXORDINAL.

(** [b] directly follows [a] in [l]. *)
Definition adjacent {A : Type} (a b : A) (l : list A) : Prop :=
  exists l1 l2, l = (l1 ++ a :: b :: l2)%list.

(** The record built by iteration [i] of the loop in [fetch_mock_news]. *)
Definition mock_article (segment_key search_query timeframe : string)
    (start_date i : Z) : Article :=
  {| title :=
       "(" ++ segment_key ++ ") Market Update: "
       ++ Str.strip (Str.split_first "," search_query)
       ++ " Shows Volatility " ++ Str.of_int i;
     source := "Financial Times " ++ Str.of_int (i mod 3 + 1);
     date := strftime_Ymd (start_date + i * 5);
     summary :=
       "Detailed analysis shows that " ++ segment_key
       ++ " indices experienced a sharp rise followed by a consolidation phase over the "
       ++ timeframe
       ++ " period. Key drivers included FII activity and sector-specific policy changes. The outlook remains cautious.";
     url :=
       "https://mock-news.com/"
       ++ Str.lower (Str.replace " " "-" segment_key)
       ++ "-" ++ Str.of_int i |}.

Definition row_of_article (a : Article) (d : Z) : Row :=
  {| row_title := title a; row_source := source a; row_date := d;
     row_summary := summary a; row_url := url a |}.

(** Checks, for day [n] of a year, that [_month_day] yields a month and a
    day of that month which lie [n] days into the year. *)
Definition month_day_ok (leapyear : bool) (n : Z) : bool :=
  let '(m, d) := Calendar._month_day leapyear n in
  (1 <=? m) && (m <=? 12) && (1 <=? d)
  && (d <=? (if (m =? 2) && leapyear then 29 else Calendar._DAYS_IN_MONTH m))
  && (Calendar._DAYS_BEFORE_MONTH m
      + (if (2 <? m) && leapyear then 1 else 0) + d =? n + 1).

(** The number of days the [if]/[elif]/[else] of [fetch_mock_news] goes back. *)
Definition lookback_days (timeframe : string) : Z :=
  if String.eqb timeframe "Last One Week" then 7
  else if String.eqb timeframe "Last One Month" then 30
  else 90.

(** Newest first: the order [sort_values(by='date', ascending=False)] aims at. *)
Definition newer_or_same (a b : Row) : Prop := row_date b <= row_date a.

(** The converted dates of a call all fit in a [pandas.Timestamp]: the
    earliest is 85 days back (90 back, 5 ahead), the latest 18 days ahead. *)
Definition timestamps_cover (Timestamp_min Timestamp_max : Z) (now : Clock) : Prop :=
  Timestamp_min <= date_today now - 85 /\ date_today now + 18 <= Timestamp_max.

(** The first and last midnight of a nanosecond-resolution
    [pandas.Timestamp], which spans 1677-09-21T00:12:43 to 2262-04-11T23:47:16. *)
Definition Timestamp_min_ns : Z := Eval cbv in Calendar._ymd2ord 1677 9 22.
Definition Timestamp_max_ns : Z := Eval cbv in Calendar._ymd2ord 2262 4 11.

(** A clock for the specification's scenario: 2024-01-15, at midnight and at noon. *)
Definition clock_2024_01_15 : Clock :=
  {| clock_date := Calendar._ymd2ord 2024 1 15; clock_seconds := 0 |}.

Definition clock_2024_01_15_noon : Clock :=
  {| clock_date := Calendar._ymd2ord 2024 1 15; clock_seconds := 43200 |}.

(** ** The script, run by run *)

(** [st.selectbox(label, options=..., index=...)]: the option the user
    picked, or the option at [index] while the widget is untouched. A pick
    is a position in the list the widget shows; the widget offers no other
    value, so a position off the list is no run of the script. *)
Definition selectbox (options : list string) (index : nat) (picked : option nat)
  : option string :=
  nth_error options (match picked with Some k => k | None => index end).

(** What the user did before a run: the state of the two select boxes and
    whether "Fetch Latest News" was pressed. *)
Record Widgets : Type := {
  picked_segment : option nat;
  picked_timeframe : option nat;
  button_pressed : bool
}.

(** One run of the script from top to bottom: the sidebar reads the widgets
    and updates [st.session_state], then the main content is rendered if
    the flag is set. The result is the session state left behind and what
    the page shows, or the exception that ends the run. *)
Definition run_script (Timestamp_min Timestamp_max : Z) (now : Clock)
    (widgets : Widgets) (session : option bool)
  : option (option bool * result Display) :=
  match selectbox (dict_keys MARKET_SEGMENTS) 0 (picked_segment widgets),
        selectbox TIMEFRAME_OPTIONS 1 (picked_timeframe widgets) with
  | Some selected_segment, Some selected_timeframe =>
      let session' := sidebar_run_fetch (button_pressed widgets) session in
      let run_fetch := match session' with Some flag => flag | None => false end in
      Some (session',
            main_content Timestamp_min Timestamp_max run_fetch now
              selected_segment selected_timeframe)
  | _, _ => None
  end.

(** The session state after a series of runs, each with its own clock and
    widget state; [None] if one of them is no run of the script. *)
Fixpoint session_after (Timestamp_min Timestamp_max : Z)
    (runs : list (Clock * Widgets)) (session : option bool)
  : option (option bool) :=
  match runs with
  | [] => Some session
  | (now, widgets) :: runs' =>
      match run_script Timestamp_min Timestamp_max now widgets session with
      | Some (session', _) =>
          session_after Timestamp_min Timestamp_max runs' session'
      | None => None
      end
  end.

(** ** More vocabulary *)

(** The dates of a call all exist: the start date and the last article's
    date, 25 days later, are days of [datetime.date]. *)
Definition window_in_calendar (now : Clock) (timeframe : string) : Prop :=
  0 < date_today now - lookback_days timeframe
  /\ date_today now - lookback_days timeframe + 25 <= Calendar._MAXORDINAL.

Definition is_upper (c : ascii) : bool :=
  ((65 <=? nat_of_ascii c) && (nat_of_ascii c <=? 90))%nat.

(** The last day of [datetime.date], as a clock. *)
Definition clock_9999_12_31 : Clock :=
  {| clock_date := Calendar._MAXORDINAL; clock_seconds := 0 |}.

(** A day in the year 2300, past the nanosecond range of [pandas.Timestamp]. *)
Definition clock_2300_06_01 : Clock :=
  {| clock_date := Calendar._ymd2ord 2300 6 1; clock_seconds := 0 |}.

Definition clock_2024_03_01 : Clock :=
  {| clock_date := Calendar._ymd2ord 2024 3 1; clock_seconds := 0 |}.

Definition first_char (s : string) : option ascii :=
  match s with
  | EmptyString => None
  | String c _ => Some c
  end.

Fixpoint last_char (s : string) : option ascii :=
  match s with
  | EmptyString => None
  | String c EmptyString => Some c
  | String _ s' => last_char s'
  end.

(** * Properties *)

(** ** Calendar *)

Example maxordinal_value : Calendar._MAXORDINAL = 3652059.
Proof. reflexivity. Qed.

Example ord2ymd_2024_01_15 :
  Calendar._ord2ymd (Calendar._ymd2ord 2024 1 15) = (2024, 1, 15).
Proof. reflexivity. Qed.

Example ord2ymd_leap_day :
  Calendar._ord2ymd (Calendar._ymd2ord 2024 2 29) = (2024, 2, 29).
Proof. reflexivity. Qed.

Example ord2ymd_last_day :
  Calendar._ord2ymd Calendar._MAXORDINAL = (9999, 12, 31).
Proof. reflexivity. Qed.

Example ord2ymd_first_day : Calendar._ord2ymd 1 = (1, 1, 1).
Proof. reflexivity. Qed.

Lemma in_range : forall lo hi n, lo <= n < hi -> In n (range lo hi).
Proof.
  intros lo hi n H. unfold range. apply in_map_iff.
  exists (Z.to_nat (n - lo)). split; [lia|]. apply in_seq. lia.
Qed.

Lemma month_day_all : forall leapyear : bool,
  forallb (month_day_ok leapyear) (range 0 (if leapyear then 366 else 365)) = true.
Proof. intros []; vm_compute; reflexivity. Qed.

Lemma month_day_spec : forall (leapyear : bool) (n : Z),
  0 <= n < (if leapyear then 366 else 365) ->
  month_day_ok leapyear n = true.
Proof.
  intros leapyear n H.
  pose proof (month_day_all leapyear) as Hall.
  rewrite forallb_forall in Hall. apply Hall, in_range. destruct leapyear; lia.
Qed.

Section Ord2ymd.

Variables n400 n100 n4 n1 : Z.
Hypothesis H400 : 0 <= n400.
Hypothesis H100 : 0 <= n100 < 4.
Hypothesis H4 : 0 <= n4 < 25.
Hypothesis H1 : 0 <= n1 < 4.

Let year := n400 * 400 + 1 + (n100 * 100 + n4 * 4 + n1).

Lemma days_before_year_digits :
  Calendar._days_before_year year
  = 146097 * n400 + 36524 * n100 + 1461 * n4 + 365 * n1.
Proof using H400 H100 H4 H1.
  unfold Calendar._days_before_year, year.
  replace (n400 * 400 + 1 + (n100 * 100 + n4 * 4 + n1) - 1)
    with (n1 + 4 * (n4 + 25 * (n100 + 4 * n400))) by lia.
  assert (E4 : (n1 + 4 * (n4 + 25 * (n100 + 4 * n400))) / 4
               = n4 + 25 * (n100 + 4 * n400)).
  { symmetry. apply Z.div_unique with (r := n1); lia. }
  assert (E100 : (n1 + 4 * (n4 + 25 * (n100 + 4 * n400))) / 100
                 = n100 + 4 * n400).
  { symmetry. apply Z.div_unique with (r := n1 + 4 * n4); lia. }
  assert (E400 : (n1 + 4 * (n4 + 25 * (n100 + 4 * n400))) / 400 = n400).
  { symmetry. apply Z.div_unique with (r := n1 + 4 * n4 + 100 * n100); lia. }
  rewrite E4, E100, E400. lia.
Qed.

Lemma is_leap_digits :
  Calendar._is_leap year = (n1 =? 3) && (negb (n4 =? 24) || (n100 =? 3)).
Proof using H400 H100 H4 H1.
  unfold Calendar._is_leap, year.
  assert (M4 : (n400 * 400 + 1 + (n100 * 100 + n4 * 4 + n1)) mod 4
               = (n1 + 1) mod 4).
  { replace (n400 * 400 + 1 + (n100 * 100 + n4 * 4 + n1))
      with (n1 + 1 + (n400 * 100 + n100 * 25 + n4) * 4) by lia.
    apply Z.mod_add. lia. }
  assert (M100 : (n400 * 400 + 1 + (n100 * 100 + n4 * 4 + n1)) mod 100
                 = (n4 * 4 + n1 + 1) mod 100).
  { replace (n400 * 400 + 1 + (n100 * 100 + n4 * 4 + n1))
      with (n4 * 4 + n1 + 1 + (n400 * 4 + n100) * 100) by lia.
    apply Z.mod_add. lia. }
  assert (M400 : (n400 * 400 + 1 + (n100 * 100 + n4 * 4 + n1)) mod 400
                 = (n100 * 100 + n4 * 4 + n1 + 1) mod 400).
  { replace (n400 * 400 + 1 + (n100 * 100 + n4 * 4 + n1))
      with (n100 * 100 + n4 * 4 + n1 + 1 + n400 * 400) by lia.
    apply Z.mod_add. lia. }
  rewrite M4, M100, M400.
  assert (C1 : n1 = 0 \/ n1 = 1 \/ n1 = 2 \/ n1 = 3) by lia.
  destruct C1 as [-> | [-> | [-> | ->]]]; try reflexivity.
  change ((3 + 1) mod 4 =? 0) with true. cbn [andb Z.eqb].
  destruct (Z.eqb_spec n4 24) as [-> | N4].
  - cbn [negb orb]. change ((24 * 4 + 3 + 1) mod 100 =? 0) with true.
    cbn [negb orb].
    destruct (Z.eqb_spec n100 3) as [-> | N100]; [reflexivity|].
    apply Z.eqb_neq.
    rewrite Z.mod_small by lia. lia.
  - cbn [negb orb].
    replace ((n4 * 4 + 3 + 1) mod 100 =? 0) with false; [reflexivity|].
    symmetry. apply Z.eqb_neq. rewrite Z.mod_small by lia. lia.
Qed.

End Ord2ymd.

(** [_ord2ymd] yields a date of the calendar, and [_ymd2ord] maps it back. *)
Lemma ord2ymd_spec : forall n : Z,
  1 <= n <= Calendar._MAXORDINAL ->
  exists y m d,
    Calendar._ord2ymd n = (y, m, d)
    /\ 1 <= y <= 9999 /\ 1 <= m <= 12
    /\ 1 <= d <= Calendar._days_in_month y m
    /\ Calendar._ymd2ord y m d = n.
Proof.
  intros n Hn. unfold Calendar._MAXORDINAL in Hn.
  unfold Calendar._ord2ymd, Calendar._DI400Y, Calendar._DI100Y, Calendar._DI4Y.
  pose proof (Z.div_mod (n - 1) 146097 ltac:(lia)) as E1.
  pose proof (Z.mod_pos_bound (n - 1) 146097 ltac:(lia)) as B1.
  set (n400 := (n - 1) / 146097) in *. set (r1 := (n - 1) mod 146097) in *.
  pose proof (Z.div_mod r1 36524 ltac:(lia)) as E2.
  pose proof (Z.mod_pos_bound r1 36524 ltac:(lia)) as B2.
  set (n100 := r1 / 36524) in *. set (r2 := r1 mod 36524) in *.
  pose proof (Z.div_mod r2 1461 ltac:(lia)) as E3.
  pose proof (Z.mod_pos_bound r2 1461 ltac:(lia)) as B3.
  set (n4 := r2 / 1461) in *. set (r3 := r2 mod 1461) in *.
  pose proof (Z.div_mod r3 365 ltac:(lia)) as E4.
  pose proof (Z.mod_pos_bound r3 365 ltac:(lia)) as B4.
  set (n1 := r3 / 365) in *. set (r4 := r3 mod 365) in *.
  assert (Hn400 : 0 <= n400 <= 24) by lia.
  assert (Hn100 : 0 <= n100 <= 4) by lia.
  assert (Hn4 : 0 <= n4 <= 24) by lia.
  assert (Hn1 : 0 <= n1 <= 4) by lia.
  destruct (Z.eqb_spec n1 4) as [N1 | N1]; cbn [orb].
  - (* the last day of a four-year cycle *)
    assert (Hn100' : n100 < 4) by lia.
    assert (Hn4' : n4 < 24) by lia.
    pose proof (days_before_year_digits n400 n100 n4 3
                  ltac:(lia) ltac:(lia) ltac:(lia) ltac:(lia)) as D.
    pose proof (is_leap_digits n400 n100 n4 3
                  ltac:(lia) ltac:(lia) ltac:(lia) ltac:(lia)) as L.
    cbv zeta in D, L.
    replace (n4 =? 24) with false in L by (symmetry; apply Z.eqb_neq; lia).
    change ((3 =? 3) && (negb false || (n100 =? 3))) with true in L.
    replace (n400 * 400 + 1 + (n100 * 100 + n4 * 4 + n1) - 1)
      with (n400 * 400 + 1 + (n100 * 100 + n4 * 4 + 3)) by lia.
    eexists _, _, _. split; [reflexivity|].
    unfold Calendar._days_in_month, Calendar._ymd2ord, Calendar._days_before_month.
    rewrite D, L.
    change (12 =? 2) with false. change (2 <? 12) with true. cbn [andb].
    change (Calendar._DAYS_IN_MONTH 12) with 31.
    change (Calendar._DAYS_BEFORE_MONTH 12) with 334. lia.
  - destruct (Z.eqb_spec n100 4) as [N100 | N100].
    + (* the last day of a four-hundred-year cycle *)
      pose proof (days_before_year_digits n400 3 24 3
                    ltac:(lia) ltac:(lia) ltac:(lia) ltac:(lia)) as D.
      pose proof (is_leap_digits n400 3 24 3
                    ltac:(lia) ltac:(lia) ltac:(lia) ltac:(lia)) as L.
      cbv zeta in D, L.
      change ((3 =? 3) && (negb (24 =? 24) || (3 =? 3))) with true in L.
      replace (n400 * 400 + 1 + (n100 * 100 + n4 * 4 + n1) - 1)
        with (n400 * 400 + 1 + (3 * 100 + 24 * 4 + 3)) by lia.
      eexists _, _, _. split; [reflexivity|].
      unfold Calendar._days_in_month, Calendar._ymd2ord, Calendar._days_before_month.
      rewrite D, L.
    change (12 =? 2) with false. change (2 <? 12) with true. cbn [andb].
    change (Calendar._DAYS_IN_MONTH 12) with 31.
    change (Calendar._DAYS_BEFORE_MONTH 12) with 334. lia.
    + pose proof (days_before_year_digits n400 n100 n4 n1
                    ltac:(lia) ltac:(lia) ltac:(lia) ltac:(lia)) as D.
      pose proof (is_leap_digits n400 n100 n4 n1
                    ltac:(lia) ltac:(lia) ltac:(lia) ltac:(lia)) as L.
      cbv zeta in D, L.
      set (leapyear := (n1 =? 3) && (negb (n4 =? 24) || (n100 =? 3))) in *.
      pose proof (month_day_spec leapyear r4
                    ltac:(destruct leapyear; lia)) as M.
      unfold month_day_ok in M.
      destruct (Calendar._month_day leapyear r4) as [m d].
      repeat (apply andb_prop in M; destruct M as [M ?]).
      eexists _, _, _. split; [reflexivity|].
      unfold Calendar._days_in_month, Calendar._ymd2ord, Calendar._days_before_month.
      rewrite D, L.
      repeat match goal with
             | H : (_ <=? _) = true |- _ => apply Z.leb_le in H
             | H : (_ =? _) = true |- _ => apply Z.eqb_eq in H
             end.
      repeat split; try lia.
Qed.

(** The calendar has an edge: in its first days a look-back leaves it. *)
Example first_week_overflows :
  fetch_mock_news {| clock_date := 7; clock_seconds := 0 |} "All FNO" "Last One Week"
  = Raise OverflowError.
Proof. reflexivity. Qed.

Example last_week_overflows :
  fetch_mock_news {| clock_date := Calendar._MAXORDINAL; clock_seconds := 0 |}
    "All FNO" "Last One Week"
  = Raise OverflowError.
Proof. reflexivity. Qed.

(** ** Dates as text *)

Lemma digit_value_digit : forall k : Z,
  0 <= k <= 9 -> Str.digit_value (Str.digit k) = Some k.
Proof.
  intros k Hk.
  assert (C : k = 0 \/ k = 1 \/ k = 2 \/ k = 3 \/ k = 4 \/ k = 5 \/ k = 6
              \/ k = 7 \/ k = 8 \/ k = 9) by lia.
  repeat (destruct C as [-> | C]; [reflexivity|]). subst k. reflexivity.
Qed.

Lemma four_digits_value : forall y : Z,
  0 <= y <= 9999 ->
  0 <= y / 1000 <= 9 /\ 0 <= y / 100 mod 10 <= 9 /\ 0 <= y / 10 mod 10 <= 9
  /\ 0 <= y mod 10 <= 9
  /\ 1000 * (y / 1000) + 100 * (y / 100 mod 10) + 10 * (y / 10 mod 10) + y mod 10 = y.
Proof.
  intros y Hy. Z.to_euclidean_division_equations. lia.
Qed.

Lemma two_digits_value : forall m : Z,
  0 <= m <= 99 ->
  0 <= m / 10 <= 9 /\ 0 <= m mod 10 <= 9 /\ 10 * (m / 10) + m mod 10 = m.
Proof.
  intros m Hm. Z.to_euclidean_division_equations. lia.
Qed.

Lemma days_in_month_le : forall y m : Z, Calendar._days_in_month y m <= 31.
Proof.
  intros y m. unfold Calendar._days_in_month.
  destruct ((m =? 2) && Calendar._is_leap y); [lia|].
  unfold Calendar._DAYS_IN_MONTH.
  destruct m as [|p|p]; try lia.
  do 4 (try destruct p as [p|p|]; try lia).
Qed.

(** Reading back the text [strftime] wrote gives the date it was written from. *)
Lemma parse_strftime : forall d : Z,
  1 <= d <= Calendar._MAXORDINAL ->
  parse_Ymd (strftime_Ymd d) = Ok d.
Proof.
  intros d Hd.
  destruct (ord2ymd_spec d Hd) as (y & m & dd & E & Hy & Hm & Hdd & Hord).
  unfold strftime_Ymd. rewrite E.
  pose proof (days_in_month_le y m) as Hle.
  destruct (four_digits_value y ltac:(lia)) as (Y3 & Y2 & Y1 & Y0 & EY).
  destruct (two_digits_value m ltac:(lia)) as (M1 & M0 & EM).
  destruct (two_digits_value dd ltac:(lia)) as (D1 & D0 & ED).
  unfold Str.four_digits, Str.two_digits. cbn [String.append parse_Ymd].
  rewrite !digit_value_digit by assumption.
  rewrite EY, EM, ED.
  unfold Calendar.date, Calendar.MINYEAR, Calendar.MAXYEAR.
  replace ((1 <=? y) && (y <=? 9999) && (1 <=? m) && (m <=? 12) && (1 <=? dd)
           && (dd <=? Calendar._days_in_month y m)) with true.
  - rewrite Hord. reflexivity.
  - symmetry. repeat (apply andb_true_intro; split); apply Z.leb_le; lia.
Qed.

(** ** The generator *)

Lemma date_add_ok : forall d k : Z,
  0 < d + k <= Calendar._MAXORDINAL -> Calendar.date_add d k = Ok (d + k).
Proof.
  intros d k H. unfold Calendar.date_add.
  replace (0 <? d + k) with true by (symmetry; apply Z.ltb_lt; lia).
  replace (d + k <=? Calendar._MAXORDINAL) with true
    by (symmetry; apply Z.leb_le; lia).
  reflexivity.
Qed.

Lemma date_add_overflow : forall d k : Z,
  ~ 0 < d + k <= Calendar._MAXORDINAL -> Calendar.date_add d k = Raise OverflowError.
Proof.
  intros d k H. unfold Calendar.date_add.
  destruct (Z.ltb_spec 0 (d + k)); [|reflexivity].
  destruct (Z.leb_spec (d + k) Calendar._MAXORDINAL); [lia|reflexivity].
Qed.

Lemma dict_getitem_in : forall (d : list (string * string)) (key : string),
  In key (dict_keys d) -> exists v, dict_getitem d key = Ok v.
Proof.
  induction d as [|[k v] d IH]; intros key Hin; [destruct Hin|].
  cbn [dict_getitem]. destruct (String.eqb_spec k key) as [->|Hne].
  - now exists v.
  - destruct Hin as [Heq|Hin]; [now elim Hne|]. now apply IH.
Qed.

Lemma dict_getitem_missing : forall (d : list (string * string)) (key : string),
  ~ In key (dict_keys d) -> dict_getitem d key = Raise (KeyError key).
Proof.
  induction d as [|[k v] d IH]; intros key Hnin; [reflexivity|].
  cbn [dict_getitem]. destruct (String.eqb_spec k key) as [->|Hne].
  - elim Hnin. now left.
  - apply IH. intros Hin. apply Hnin. now right.
Qed.

Lemma dict_getitem_ok_in : forall (d : list (string * string)) (key v : string),
  dict_getitem d key = Ok v -> In key (dict_keys d).
Proof.
  intros d key v H. destruct (in_dec string_dec key (dict_keys d)) as [|Hn]; [assumption|].
  rewrite (dict_getitem_missing d key Hn) in H. discriminate.
Qed.

Lemma offset_days_lookback : forall (timeframe : string) (off : Z),
  offset_days timeframe = Some off -> lookback_days timeframe = off.
Proof.
  intros tf off. unfold offset_days, lookback_days.
  destruct (String.eqb tf "Last One Week"); [congruence|].
  destruct (String.eqb tf "Last One Month"); [congruence|].
  destruct (String.eqb tf "Last Three Months"); congruence.
Qed.

Lemma offset_days_valid : forall timeframe : string,
  In timeframe TIMEFRAME_OPTIONS <-> exists off, offset_days timeframe = Some off.
Proof.
  intros tf. unfold offset_days, TIMEFRAME_OPTIONS. split.
  - intros [<- | [<- | [<- | []]]]; cbn; eauto.
  - intros [off H].
    destruct (String.eqb_spec tf "Last One Week"); [subst; cbn; tauto|].
    destruct (String.eqb_spec tf "Last One Month"); [subst; cbn; tauto|].
    destruct (String.eqb_spec tf "Last Three Months"); [subst; cbn; tauto|].
    discriminate.
Qed.

Lemma lookback_days_bounds : forall timeframe : string,
  7 <= lookback_days timeframe <= 90.
Proof.
  intros tf. unfold lookback_days.
  destruct (String.eqb tf "Last One Week"); [lia|].
  destruct (String.eqb tf "Last One Month"); lia.
Qed.

(** The start date computed by the three branches. *)
Lemma start_date_ok : forall (today : Z) (timeframe : string),
  0 < today - lookback_days timeframe <= Calendar._MAXORDINAL ->
  (if String.eqb timeframe "Last One Week" then Calendar.date_sub today 7
   else if String.eqb timeframe "Last One Month" then Calendar.date_sub today 30
   else Calendar.date_sub today 90)
  = Ok (today - lookback_days timeframe).
Proof.
  intros today tf. unfold lookback_days, Calendar.date_sub.
  destruct (String.eqb tf "Last One Week");
    [|destruct (String.eqb tf "Last One Month")];
    intros H; rewrite date_add_ok by lia; f_equal; lia.
Qed.

(** What a call returns whenever the segment is a key of [MARKET_SEGMENTS]
    and the dates it computes exist: the five records of the loop, in order. *)
Lemma fetch_mock_news_ok :
  forall (now : Clock) (segment_key timeframe search_query : string),
    dict_getitem MARKET_SEGMENTS segment_key = Ok search_query ->
    0 < date_today now - lookback_days timeframe ->
    date_today now - lookback_days timeframe + 25 <= Calendar._MAXORDINAL ->
    fetch_mock_news now segment_key timeframe
    = Ok (List.map
            (mock_article segment_key search_query timeframe
               (date_today now - lookback_days timeframe))
            [1; 2; 3; 4; 5]).
Proof.
  intros now seg tf q Hq Hlo Hhi.
  unfold fetch_mock_news. rewrite Hq. cbn [bind]. cbv zeta.
  rewrite start_date_ok by lia. cbn [bind].
  change (range 1 (5 + 1)) with [1; 2; 3; 4; 5].
  set (start := date_today now - lookback_days tf) in *.
  cbn [for_each].
  rewrite (date_add_ok start (1 * 5)) by lia. cbn [bind].
  rewrite (date_add_ok start (2 * 5)) by lia. cbn [bind].
  rewrite (date_add_ok start (3 * 5)) by lia. cbn [bind].
  rewrite (date_add_ok start (4 * 5)) by lia. cbn [bind].
  rewrite (date_add_ok start (5 * 5)) by lia. cbn [bind].
  reflexivity.
Qed.

Lemma today_in_range_bounds : forall now : Clock,
  today_in_range now ->
  90 < date_today now /\ date_today now + 18 <= Calendar._MAXORDINAL.
Proof.
  intros now [Hlo Hhi]. unfold first_wide_year_day in Hlo. lia.
Qed.

Lemma fetch_mock_news_in_range :
  forall (now : Clock) (segment_key timeframe : string),
    In segment_key (dict_keys MARKET_SEGMENTS) ->
    today_in_range now ->
    exists search_query,
      dict_getitem MARKET_SEGMENTS segment_key = Ok search_query
      /\ fetch_mock_news now segment_key timeframe
         = Ok (List.map
                 (mock_article segment_key search_query timeframe
                    (date_today now - lookback_days timeframe))
                 [1; 2; 3; 4; 5]).
Proof.
  intros now seg tf Hseg Hr. apply today_in_range_bounds in Hr.
  destruct Hr as [Hlo Hhi].
  destruct (dict_getitem_in _ _ Hseg) as [q Hq].
  pose proof (lookback_days_bounds tf).
  exists q. split; [assumption|].
  apply fetch_mock_news_ok; [assumption|lia|lia].
Qed.

Lemma mock_article_date : forall (seg q tf : string) (start i : Z),
  1 <= start + i * 5 <= Calendar._MAXORDINAL ->
  parse_Ymd (date (mock_article seg q tf start i)) = Ok (start + i * 5).
Proof. intros. cbn [date mock_article]. now apply parse_strftime. Qed.

(** ** Sorting the data frame *)

Lemma insert_desc_perm : forall (r : Row) (rows : list Row),
  Permutation (r :: rows) (insert_desc r rows).
Proof.
  intros r rows. induction rows as [|h t IH]; cbn [insert_desc].
  - apply Permutation_refl.
  - destruct (row_date h <=? row_date r).
    + apply Permutation_refl.
    + eapply Permutation_trans; [apply perm_swap|]. now apply perm_skip.
Qed.

Lemma sort_values_date_desc_perm : forall rows : list Row,
  Permutation rows (sort_values_date_desc rows).
Proof.
  induction rows as [|r rows IH]; [apply Permutation_refl|].
  cbn [sort_values_date_desc fold_right].
  eapply Permutation_trans; [apply perm_skip, IH|]. apply insert_desc_perm.
Qed.

Lemma insert_desc_sorted : forall (r : Row) (rows : list Row),
  Sorted newer_or_same rows -> Sorted newer_or_same (insert_desc r rows).
Proof.
  intros r rows Hs. induction Hs as [|h t Hs IH Hhd]; cbn [insert_desc].
  - repeat constructor.
  - destruct (Z.leb_spec (row_date h) (row_date r)) as [Hle|Hgt].
    + constructor; [now constructor|]. now constructor.
    + constructor; [assumption|].
      destruct t as [|h' t']; cbn [insert_desc].
      * constructor. unfold newer_or_same. lia.
      * destruct (Z.leb_spec (row_date h') (row_date r)).
        -- constructor. unfold newer_or_same. lia.
        -- constructor. now inversion Hhd.
Qed.

Lemma sort_values_date_desc_sorted : forall rows : list Row,
  Sorted newer_or_same (sort_values_date_desc rows).
Proof.
  induction rows as [|r rows IH]; [constructor|].
  cbn [sort_values_date_desc fold_right]. now apply insert_desc_sorted.
Qed.

Lemma sorted_adjacent : forall (rows : list Row) (a b : Row),
  Sorted newer_or_same rows -> adjacent a b rows -> row_date a >= row_date b.
Proof.
  intros rows a b Hs (l1 & l2 & ->). induction l1 as [|x l1 IH].
  - cbn in Hs. inversion Hs as [|? ? _ Hhd]; subst.
    inversion Hhd; subst. unfold newer_or_same in *. lia.
  - apply IH. cbn in Hs. now inversion Hs.
Qed.

(** A row older than all of [rows] goes to the end. *)
Lemma insert_desc_oldest : forall (r : Row) (rows : list Row),
  Forall (fun h => row_date r < row_date h) rows ->
  insert_desc r rows = (rows ++ [r])%list.
Proof.
  intros r rows H. induction H as [|h t Hh Ht IH]; [reflexivity|].
  cbn [insert_desc app].
  destruct (Z.leb_spec (row_date h) (row_date r)); [lia|]. now rewrite IH.
Qed.

(** Rows that come oldest first, with no two dates equal, leave the sort reversed. *)
Lemma sort_values_date_desc_increasing : forall rows : list Row,
  StronglySorted (fun a b => row_date a < row_date b) rows ->
  sort_values_date_desc rows = rev rows.
Proof.
  intros rows H. induction H as [|r rows Hs IH Hall]; [reflexivity|].
  cbn [sort_values_date_desc fold_right rev].
  fold (sort_values_date_desc rows). rewrite IH.
  apply insert_desc_oldest. apply Forall_forall. intros h Hin.
  rewrite Forall_forall in Hall. apply Hall. now apply in_rev.
Qed.

Lemma newer_or_same_trans : forall a b c : Row,
  newer_or_same a b -> newer_or_same b c -> newer_or_same a c.
Proof. unfold newer_or_same. intros. lia. Qed.

(** When no two rows share a date there is one way to put them newest
    first. *)
Lemma newest_first_unique : forall l1 l2 : list Row,
  StronglySorted newer_or_same l1 ->
  StronglySorted newer_or_same l2 ->
  Permutation l1 l2 ->
  NoDup (List.map row_date l1) ->
  l1 = l2.
Proof.
  induction l1 as [|a t1 IH]; intros l2 S1 S2 P N.
  - apply Permutation_nil in P. now subst.
  - destruct l2 as [|b t2].
    + apply Permutation_sym, Permutation_nil in P. discriminate P.
    + assert (Ha : In a (b :: t2)) by (eapply Permutation_in; [exact P|now left]).
      assert (Hb : In b (a :: t1))
        by (eapply Permutation_in; [apply Permutation_sym; exact P|now left]).
      inversion S1 as [|? ? S1' F1]; subst.
      inversion S2 as [|? ? S2' F2]; subst.
      cbn [List.map] in N. inversion N as [|? ? Nin N']; subst.
      assert (a = b) as ->.
      { destruct Ha as [Hab | Ha]; [now symmetry|].
        destruct Hb as [Hba | Hb]; [assumption|].
        rewrite Forall_forall in F1, F2.
        pose proof (F1 b Hb) as H1. pose proof (F2 a Ha) as H2.
        unfold newer_or_same in H1, H2.
        elim Nin. apply in_map_iff. exists b. split; [lia|assumption]. }
      f_equal. apply IH; try assumption.
      eapply Permutation_cons_inv. exact P.
Qed.

(** So on such rows any procedure that returns them newest first agrees
    with [sort_values_date_desc]. *)
Lemma sort_values_date_desc_unique : forall rows sorted : list Row,
  NoDup (List.map row_date rows) ->
  Permutation rows sorted ->
  Sorted newer_or_same sorted ->
  sorted = sort_values_date_desc rows.
Proof.
  intros rows sorted N P S.
  assert (T : forall a b c : Row,
             newer_or_same a b -> newer_or_same b c -> newer_or_same a c)
    by exact newer_or_same_trans.
  apply newest_first_unique.
  - apply Sorted_StronglySorted; assumption.
  - apply Sorted_StronglySorted; [assumption|apply sort_values_date_desc_sorted].
  - eapply Permutation_trans; [apply Permutation_sym; exact P|].
    apply sort_values_date_desc_perm.
  - eapply Permutation_NoDup; [|exact N]. now apply Permutation_map.
Qed.

(** ** The frame of a generated list *)

Lemma to_frame_acc :
  forall (tmin tmax : Z) (news : list Article) (ds : list Z) (acc : list Row),
    Forall2 (fun a d => to_datetime tmin tmax (date a) = Ok d) news ds ->
    for_each news
      (fun a rows =>
         d <- to_datetime tmin tmax (date a) ;;
         Ok (List.app rows
               [ {| row_title := title a; row_source := source a; row_date := d;
                    row_summary := summary a; row_url := url a |} ]))
      acc
    = Ok (acc ++ List.map (fun p => row_of_article (fst p) (snd p))
                          (combine news ds))%list.
Proof.
  intros tmin tmax news ds acc H. revert acc.
  induction H as [|a d news ds Had _ IH]; intros acc; cbn [for_each combine List.map].
  - now rewrite app_nil_r.
  - rewrite Had. cbn [bind]. rewrite IH. rewrite <- app_assoc. reflexivity.
Qed.

Lemma to_frame_ok :
  forall (tmin tmax : Z) (news : list Article) (ds : list Z),
    Forall2 (fun a d => to_datetime tmin tmax (date a) = Ok d) news ds ->
    to_frame tmin tmax news
    = Ok (List.map (fun p => row_of_article (fst p) (snd p)) (combine news ds)).
Proof. intros. unfold to_frame. now rewrite (to_frame_acc tmin tmax news ds []). Qed.

Lemma to_datetime_ok : forall (tmin tmax : Z) (s : string) (d : Z),
  parse_Ymd s = Ok d -> tmin <= d <= tmax -> to_datetime tmin tmax s = Ok d.
Proof.
  intros tmin tmax s d Hp Hb. unfold to_datetime. rewrite Hp. cbn [bind].
  replace (tmin <=? d) with true by (symmetry; apply Z.leb_le; lia).
  replace (d <=? tmax) with true by (symmetry; apply Z.leb_le; lia).
  reflexivity.
Qed.

(** The main content block on the five generated records: they are shown
    newest first, which is the reverse of the order of generation. *)
Lemma main_content_rows :
  forall (tmin tmax : Z) (now : Clock) (segment_key timeframe search_query : string),
    dict_getitem MARKET_SEGMENTS segment_key = Ok search_query ->
    today_in_range now ->
    timestamps_cover tmin tmax now ->
    main_content tmin tmax true now segment_key timeframe
    = Ok (Expanders
            (List.map
               (fun i =>
                  let start := date_today now - lookback_days timeframe in
                  row_of_article
                    (mock_article segment_key search_query timeframe start i)
                    (start + i * 5))
               [5; 4; 3; 2; 1])).
Proof.
  intros tmin tmax now seg tf q Hq Hr Hc.
  pose proof (lookback_days_bounds tf) as Hb.
  apply today_in_range_bounds in Hr.
  destruct Hr as [Hlo Hhi]. destruct Hc as [Cmin Cmax].
  unfold main_content. rewrite (fetch_mock_news_ok now seg tf q Hq) by lia.
  cbn [bind List.map]. cbv zeta.
  set (start := date_today now - lookback_days tf) in *.
  rewrite (to_frame_ok tmin tmax _
             [start + 1 * 5; start + 2 * 5; start + 3 * 5; start + 4 * 5; start + 5 * 5]).
  - cbn [bind combine List.map fst snd].
    rewrite sort_values_date_desc_increasing; [reflexivity|].
    repeat (constructor; [|repeat (constructor; cbn [row_date row_of_article]; try lia)]).
    constructor.
  - repeat (constructor;
            [apply to_datetime_ok; [apply mock_article_date|]; lia|]).
    constructor.
Qed.

(** The session flag is set on the first run and by the button, and the
    sidebar never clears it. *)
Lemma sidebar_run_fetch_first_run : forall button : bool,
  sidebar_run_fetch button None = Some true.
Proof. intros []; reflexivity. Qed.

Lemma sidebar_run_fetch_button : forall session : option bool,
  sidebar_run_fetch true session = Some true.
Proof. intros [b|]; reflexivity. Qed.

Lemma sidebar_run_fetch_keeps : forall (button : bool) (session : option bool),
  session = Some true -> sidebar_run_fetch button session = Some true.
Proof. intros [] session ->; reflexivity. Qed.

Lemma main_content_not_requested :
  forall (tmin tmax : Z) (now : Clock) (segment_key timeframe : string),
    main_content tmin tmax false now segment_key timeframe = Ok Blank.
Proof. reflexivity. Qed.

(** ** Text helpers *)

Lemma append_cancel_l : forall p a b : string, (p ++ a = p ++ b)%string -> a = b.
Proof.
  induction p as [|c p IH]; intros a b H; cbn [String.append] in H.
  - assumption.
  - injection H as H. now apply IH.
Qed.

Lemma of_int_index_inj : forall i j : Z,
  In i [1; 2; 3; 4; 5] -> In j [1; 2; 3; 4; 5] ->
  Str.of_int i = Str.of_int j -> i = j.
Proof.
  intros i j Hi Hj.
  repeat (destruct Hi as [<- | Hi]); try destruct Hi;
    repeat (destruct Hj as [<- | Hj]); try destruct Hj;
    intros H; first [reflexivity | discriminate H].
Qed.

Lemma mock_article_title_inj : forall (seg q tf : string) (start i j : Z),
  title (mock_article seg q tf start i) = title (mock_article seg q tf start j) ->
  Str.of_int i = Str.of_int j.
Proof.
  intros seg q tf start i j H. cbn [title mock_article] in H.
  repeat apply append_cancel_l in H. exact H.
Qed.

Lemma mock_article_url_inj : forall (seg q tf : string) (start i j : Z),
  url (mock_article seg q tf start i) = url (mock_article seg q tf start j) ->
  Str.of_int i = Str.of_int j.
Proof.
  intros seg q tf start i j H. cbn [url mock_article] in H.
  repeat apply append_cancel_l in H. exact H.
Qed.

Lemma index_cases : forall i : Z,
  1 <= i <= 5 -> i = 1 \/ i = 2 \/ i = 3 \/ i = 4 \/ i = 5.
Proof. intros; lia. Qed.

Lemma not_option_lookback : forall timeframe : string,
  ~ In timeframe TIMEFRAME_OPTIONS -> lookback_days timeframe = 90.
Proof.
  intros tf H. unfold lookback_days.
  destruct (String.eqb_spec tf "Last One Week") as [->|_];
    [elim H; cbn; tauto|].
  destruct (String.eqb_spec tf "Last One Month") as [->|_];
    [elim H; cbn; tauto|reflexivity].
Qed.

(** Closed comparisons between dates, such as the range of a given clock. *)
Ltac closed_dates :=
  unfold today_in_range, timestamps_cover;
  repeat split; vm_compute; first [reflexivity | discriminate].

(** * The claims *)

(** C1. For every segment key of [MARKET_SEGMENTS], every label of
    [TIMEFRAME_OPTIONS] and every today, [fetch_mock_news] returns a list of
    exactly five article records. *)
Theorem fetch_mock_news_five_articles :
  forall (now : Clock) (segment_key timeframe : string),
    In segment_key (dict_keys MARKET_SEGMENTS) ->
    In timeframe TIMEFRAME_OPTIONS ->
    today_in_range now ->
    exists articles,
      fetch_mock_news now segment_key timeframe = Ok articles
      /\ List.length articles = 5%nat.
Proof.
  intros now seg tf Hseg _ Hr.
  destruct (fetch_mock_news_in_range now seg tf Hseg Hr) as (q & _ & ->).
  eexists. split; reflexivity.
Qed.

Lemma fetch_mock_news_five_articles_witness :
  In "Small Cap FNO" (dict_keys MARKET_SEGMENTS)
  /\ In "Last One Month" TIMEFRAME_OPTIONS
  /\ today_in_range clock_2024_01_15
  /\ exists articles,
       fetch_mock_news clock_2024_01_15 "Small Cap FNO" "Last One Month" = Ok articles
       /\ List.length articles = 5%nat.
Proof.
  assert (Hs : In "Small Cap FNO" (dict_keys MARKET_SEGMENTS)) by (cbn; tauto).
  assert (Ht : In "Last One Month" TIMEFRAME_OPTIONS) by (cbn; tauto).
  assert (Hr : today_in_range clock_2024_01_15) by closed_dates.
  split; [exact Hs|]. split; [exact Ht|]. split; [exact Hr|].
  exact (fetch_mock_news_five_articles clock_2024_01_15 _ _ Hs Ht Hr).
Defined.

(** C2. For every valid input, article [i] (for [i] from 1 to 5) is dated
    [(today - offset_days timeframe) + 5 * i], where [offset_days] is 7, 30
    or 90; for "Mid Cap FNO", "Last One Week" and today = 2024-01-15,
    article 1 is dated 2024-01-13, article 5 is dated 2024-02-02 and
    article 1 is titled
    "(Mid Cap FNO) Market Update: Nifty Midcap 100 Shows Volatility 1". *)
Theorem fetch_mock_news_article_dates :
  forall (now : Clock) (segment_key timeframe : string) (off : Z),
    In segment_key (dict_keys MARKET_SEGMENTS) ->
    offset_days timeframe = Some off ->
    today_in_range now ->
    exists articles,
      fetch_mock_news now segment_key timeframe = Ok articles
      /\ (forall i : Z, 1 <= i <= 5 ->
          exists a,
            nth_error articles (Z.to_nat (i - 1)) = Some a
            /\ date a = strftime_Ymd (date_today now - off + 5 * i)
            /\ parse_Ymd (date a) = Ok (date_today now - off + 5 * i))
      /\ (segment_key = "Mid Cap FNO" -> timeframe = "Last One Week" ->
          date_today now = Calendar._ymd2ord 2024 1 15 ->
          exists a1 a2 a3 a4 a5,
            articles = [a1; a2; a3; a4; a5]
            /\ date a1 = "2024-01-13" /\ date a5 = "2024-02-02"
            /\ title a1
               = "(Mid Cap FNO) Market Update: Nifty Midcap 100 Shows Volatility 1").
Proof.
  intros now seg tf off Hseg Hoff Hr.
  destruct (fetch_mock_news_in_range now seg tf Hseg Hr) as (q & Hq & ->).
  rewrite (offset_days_lookback tf off Hoff).
  assert (Hoff' : 7 <= off <= 90).
  { rewrite <- (offset_days_lookback tf off Hoff). apply lookback_days_bounds. }
  apply today_in_range_bounds in Hr. destruct Hr as [Hlo Hhi].
  eexists. split; [reflexivity|]. split.
  - intros i Hi. eexists.
    replace (date_today now - off + 5 * i) with (date_today now - off + i * 5) by lia.
    split; [|split; [|apply mock_article_date; lia]].
    + destruct (index_cases i Hi) as [-> | [-> | [-> | [-> | ->]]]]; reflexivity.
    + reflexivity.
  - intros -> -> Htoday. cbn [List.map]. do 5 eexists. split; [reflexivity|].
    cbn in Hoff. injection Hoff as <-.
    rewrite Htoday. cbn in Hq. injection Hq as <-.
    repeat split; vm_compute; reflexivity.
Qed.

Lemma fetch_mock_news_article_dates_witness :
  In "Mid Cap FNO" (dict_keys MARKET_SEGMENTS)
  /\ offset_days "Last One Week" = Some 7
  /\ today_in_range clock_2024_01_15
  /\ exists articles,
    fetch_mock_news clock_2024_01_15 "Mid Cap FNO" "Last One Week" = Ok articles
    /\ (exists a1 a2 a3 a4 a5,
          articles = [a1; a2; a3; a4; a5]
          /\ date a1 = "2024-01-13" /\ date a5 = "2024-02-02"
          /\ title a1
             = "(Mid Cap FNO) Market Update: Nifty Midcap 100 Shows Volatility 1").
Proof.
  assert (Hs : In "Mid Cap FNO" (dict_keys MARKET_SEGMENTS)) by (cbn; tauto).
  assert (Ho : offset_days "Last One Week" = Some 7) by reflexivity.
  assert (Hr : today_in_range clock_2024_01_15) by closed_dates.
  split; [exact Hs|]. split; [exact Ho|]. split; [exact Hr|].
  destruct (fetch_mock_news_article_dates clock_2024_01_15 _ _ 7 Hs Ho Hr)
    as (articles & Hf & _ & Hscenario).
  exists articles. split; [exact Hf|].
  apply Hscenario; reflexivity.
Defined.

(** C3, as the specification words it, does not hold: a label outside
    [TIMEFRAME_OPTIONS] falls into the [else] branch, and the call returns
    five articles dated from 90 days back instead of raising. *)
Lemma unknown_timeframe_not_rejected :
  ~ In "Yesterday" TIMEFRAME_OPTIONS
  /\ exists articles,
       fetch_mock_news clock_2024_01_15 "All FNO" "Yesterday" = Ok articles
       /\ List.map date articles
          = ["2023-10-22"; "2023-10-27"; "2023-11-01"; "2023-11-06"; "2023-11-11"].
Proof.
  split.
  - cbn. intros [H | [H | [H | []]]]; discriminate H.
  - eexists. split; vm_compute; reflexivity.
Qed.

(** C3, amended. For a segment key of [MARKET_SEGMENTS] and a label that is
    not in [TIMEFRAME_OPTIONS], [fetch_mock_news] does not raise: it takes
    the 90-day branch and returns the five articles it returns for
    "Last Three Months", except that each summary quotes the label given. *)
Theorem unknown_timeframe_defaults_to_three_months :
  forall (now : Clock) (segment_key timeframe : string),
    In segment_key (dict_keys MARKET_SEGMENTS) ->
    ~ In timeframe TIMEFRAME_OPTIONS ->
    today_in_range now ->
    exists articles reference,
      fetch_mock_news now segment_key timeframe = Ok articles
      /\ fetch_mock_news now segment_key "Last Three Months" = Ok reference
      /\ List.length articles = 5%nat
      /\ List.map title articles = List.map title reference
      /\ List.map source articles = List.map source reference
      /\ List.map date articles = List.map date reference
      /\ List.map url articles = List.map url reference
      /\ (forall a, In a articles ->
          summary a
          = "Detailed analysis shows that " ++ segment_key
            ++ " indices experienced a sharp rise followed by a consolidation phase over the "
            ++ timeframe
            ++ " period. Key drivers included FII activity and sector-specific policy changes. The outlook remains cautious.").
Proof.
  intros now seg tf Hseg Htf Hr.
  destruct (fetch_mock_news_in_range now seg tf Hseg Hr) as (q & Hq & ->).
  destruct (fetch_mock_news_in_range now seg "Last Three Months" Hseg Hr)
    as (q' & Hq' & ->).
  assert (q' = q) by congruence. subst q'.
  rewrite (not_option_lookback tf Htf).
  change (lookback_days "Last Three Months") with 90.
  do 2 eexists. split; [reflexivity|]. split; [reflexivity|].
  repeat (split; [reflexivity|]).
  intros a Ha. cbn [List.map In] in Ha.
  repeat (destruct Ha as [<- | Ha]; [reflexivity|]). destruct Ha.
Qed.

Lemma unknown_timeframe_defaults_to_three_months_witness :
  In "All FNO" (dict_keys MARKET_SEGMENTS)
  /\ ~ In "Yesterday" TIMEFRAME_OPTIONS
  /\ today_in_range clock_2024_01_15
  /\ exists articles reference,
       fetch_mock_news clock_2024_01_15 "All FNO" "Yesterday" = Ok articles
       /\ fetch_mock_news clock_2024_01_15 "All FNO" "Last Three Months" = Ok reference
       /\ List.map date articles = List.map date reference.
Proof.
  assert (Hs : In "All FNO" (dict_keys MARKET_SEGMENTS)) by (cbn; tauto).
  assert (Ht : ~ In "Yesterday" TIMEFRAME_OPTIONS).
  { cbn. intros [H | [H | [H | []]]]; discriminate H. }
  assert (Hr : today_in_range clock_2024_01_15) by closed_dates.
  split; [exact Hs|]. split; [exact Ht|]. split; [exact Hr|].
  destruct (unknown_timeframe_defaults_to_three_months clock_2024_01_15 _ _ Hs Ht Hr)
    as (articles & reference & H1 & H2 & _ & _ & _ & H3 & _).
  exists articles, reference. repeat split; assumption.
Defined.

(** C4. For every valid input, what the main content block emits after
    sorting is ordered by date, newest first: whenever [b] directly follows
    [a] in the emitted rows, the date of [a] is not before the date of [b]. *)
Theorem main_content_sorted_by_date_descending :
  forall (Timestamp_min Timestamp_max : Z) (now : Clock)
         (segment_key timeframe : string),
    In segment_key (dict_keys MARKET_SEGMENTS) ->
    In timeframe TIMEFRAME_OPTIONS ->
    today_in_range now ->
    timestamps_cover Timestamp_min Timestamp_max now ->
    exists rows,
      main_content Timestamp_min Timestamp_max true now segment_key timeframe
      = Ok (Expanders rows)
      /\ List.length rows = 5%nat
      /\ forall a b, adjacent a b rows -> row_date a >= row_date b.
Proof.
  intros tmin tmax now seg tf Hseg _ Hr Hc.
  destruct (dict_getitem_in _ _ Hseg) as [q Hq].
  pose proof (main_content_rows tmin tmax now seg tf q Hq Hr Hc) as Hrows.
  pose proof (lookback_days_bounds tf) as Hb.
  eexists. split; [exact Hrows|]. split; [reflexivity|].
  intros a b Hadj. eapply sorted_adjacent; [|exact Hadj].
  cbn [List.map]. cbv zeta.
  repeat (constructor; [|first [constructor; unfold newer_or_same;
                                cbn [row_date row_of_article]; lia
                               |constructor]]).
  constructor.
Qed.

Lemma main_content_sorted_by_date_descending_witness :
  In "Large Cap FNO" (dict_keys MARKET_SEGMENTS)
  /\ In "Last Three Months" TIMEFRAME_OPTIONS
  /\ today_in_range clock_2024_01_15
  /\ timestamps_cover Timestamp_min_ns Timestamp_max_ns clock_2024_01_15
  /\ exists rows,
       main_content Timestamp_min_ns Timestamp_max_ns true clock_2024_01_15
         "Large Cap FNO" "Last Three Months" = Ok (Expanders rows)
       /\ List.length rows = 5%nat
       /\ forall a b, adjacent a b rows -> row_date a >= row_date b.
Proof.
  assert (Hs : In "Large Cap FNO" (dict_keys MARKET_SEGMENTS)) by (cbn; tauto).
  assert (Ht : In "Last Three Months" TIMEFRAME_OPTIONS) by (cbn; tauto).
  assert (Hr : today_in_range clock_2024_01_15) by closed_dates.
  assert (Hc : timestamps_cover Timestamp_min_ns Timestamp_max_ns clock_2024_01_15)
    by closed_dates.
  split; [exact Hs|]. split; [exact Ht|]. split; [exact Hr|]. split; [exact Hc|].
  exact (main_content_sorted_by_date_descending _ _ clock_2024_01_15 _ _ Hs Ht Hr Hc).
Defined.

(** C5. For every valid segment and timeframe and every today, each date
    in the returned articles is after [today - (offset_days timeframe + 1)]
    and not after [today - 1 + 5 * 5]. *)
Theorem fetch_mock_news_dates_in_window :
  forall (now : Clock) (segment_key timeframe : string) (off : Z),
    In segment_key (dict_keys MARKET_SEGMENTS) ->
    offset_days timeframe = Some off ->
    today_in_range now ->
    exists articles,
      fetch_mock_news now segment_key timeframe = Ok articles
      /\ forall a, In a articles ->
         exists d,
           parse_Ymd (date a) = Ok d
           /\ d > date_today now - (off + 1)
           /\ d <= date_today now - 1 + 5 * 5.
Proof.
  intros now seg tf off Hseg Hoff Hr.
  destruct (fetch_mock_news_in_range now seg tf Hseg Hr) as (q & Hq & ->).
  rewrite (offset_days_lookback tf off Hoff).
  assert (Hoff' : 7 <= off <= 90).
  { rewrite <- (offset_days_lookback tf off Hoff). apply lookback_days_bounds. }
  apply today_in_range_bounds in Hr. destruct Hr as [Hlo Hhi].
  eexists. split; [reflexivity|].
  intros a Ha. apply in_map_iff in Ha. destruct Ha as (i & <- & Hi).
  assert (Hi' : 1 <= i <= 5) by (cbn in Hi; lia).
  exists (date_today now - off + i * 5).
  split; [apply mock_article_date|]; lia.
Qed.

Lemma fetch_mock_news_dates_in_window_witness :
  In "Mid Cap FNO" (dict_keys MARKET_SEGMENTS)
  /\ offset_days "Last One Month" = Some 30
  /\ today_in_range clock_2024_01_15
  /\ exists articles,
       fetch_mock_news clock_2024_01_15 "Mid Cap FNO" "Last One Month" = Ok articles
       /\ forall a, In a articles ->
          exists d,
            parse_Ymd (date a) = Ok d
            /\ d > date_today clock_2024_01_15 - (30 + 1)
            /\ d <= date_today clock_2024_01_15 - 1 + 5 * 5.
Proof.
  assert (Hs : In "Mid Cap FNO" (dict_keys MARKET_SEGMENTS)) by (cbn; tauto).
  assert (Ho : offset_days "Last One Month" = Some 30) by reflexivity.
  assert (Hr : today_in_range clock_2024_01_15) by closed_dates.
  split; [exact Hs|]. split; [exact Ho|]. split; [exact Hr|].
  exact (fetch_mock_news_dates_in_window clock_2024_01_15 _ _ 30 Hs Ho Hr).
Defined.

(** C6. For every valid segment, a call with "Last One Week" returns at
    least one article dated strictly after today. *)
Theorem last_one_week_has_future_article :
  forall (now : Clock) (segment_key : string),
    In segment_key (dict_keys MARKET_SEGMENTS) ->
    today_in_range now ->
    exists articles a d,
      fetch_mock_news now segment_key "Last One Week" = Ok articles
      /\ In a articles
      /\ parse_Ymd (date a) = Ok d
      /\ date_today now < d.
Proof.
  intros now seg Hseg Hr.
  destruct (fetch_mock_news_in_range now seg "Last One Week" Hseg Hr)
    as (q & Hq & ->).
  change (lookback_days "Last One Week") with 7.
  apply today_in_range_bounds in Hr. destruct Hr as [Hlo Hhi].
  eexists. exists (mock_article seg q "Last One Week" (date_today now - 7) 2).
  exists (date_today now - 7 + 2 * 5).
  split; [reflexivity|]. split; [cbn [List.map In]; tauto|].
  split; [apply mock_article_date|]; lia.
Qed.

Lemma last_one_week_has_future_article_witness :
  In "All FNO" (dict_keys MARKET_SEGMENTS)
  /\ today_in_range clock_2024_01_15
  /\ exists articles a d,
       fetch_mock_news clock_2024_01_15 "All FNO" "Last One Week" = Ok articles
       /\ In a articles
       /\ parse_Ymd (date a) = Ok d
       /\ date_today clock_2024_01_15 < d.
Proof.
  assert (Hs : In "All FNO" (dict_keys MARKET_SEGMENTS)) by (cbn; tauto).
  assert (Hr : today_in_range clock_2024_01_15) by closed_dates.
  split; [exact Hs|]. split; [exact Hr|].
  exact (last_one_week_has_future_article clock_2024_01_15 _ Hs Hr).
Defined.



(** C8. For every segment key that is not a key of [MARKET_SEGMENTS],
    [fetch_mock_news] raises [KeyError] for every timeframe, whatever the
    day; it returns no list, be it a default or an empty one. *)
Theorem unknown_segment_raises_KeyError :
  forall (now : Clock) (segment_key timeframe : string),
    ~ In segment_key (dict_keys MARKET_SEGMENTS) ->
    fetch_mock_news now segment_key timeframe = Raise (KeyError segment_key).
Proof.
  intros now seg tf Hseg. unfold fetch_mock_news.
  rewrite (dict_getitem_missing _ _ Hseg). reflexivity.
Qed.

Lemma unknown_segment_raises_KeyError_witness :
  ~ In "Large Cap Equity" (dict_keys MARKET_SEGMENTS)
  /\ fetch_mock_news clock_2024_01_15 "Large Cap Equity" "Last One Week"
     = Raise (KeyError "Large Cap Equity").
Proof.
  assert (Hs : ~ In "Large Cap Equity" (dict_keys MARKET_SEGMENTS)).
  { cbn. intros [H | [H | [H | [H | []]]]]; discriminate H. }
  split; [exact Hs|].
  exact (unknown_segment_raises_KeyError clock_2024_01_15 _ "Last One Week" Hs).
Defined.

(** C9. For segment "Large Cap FNO" and any valid timeframe, the article
    of index 3 has the url "https://mock-news.com/large-cap-fno-3": the
    segment in lower case with hyphens for spaces, then the index. *)
Theorem large_cap_fno_third_url :
  forall (now : Clock) (timeframe : string),
    In timeframe TIMEFRAME_OPTIONS ->
    today_in_range now ->
    exists articles a,
      fetch_mock_news now "Large Cap FNO" timeframe = Ok articles
      /\ nth_error articles 2 = Some a
      /\ title a = "(Large Cap FNO) Market Update: Nifty 50 Shows Volatility 3"
      /\ url a = "https://mock-news.com/large-cap-fno-3".
Proof.
  intros now tf _ Hr.
  assert (Hs : In "Large Cap FNO" (dict_keys MARKET_SEGMENTS)) by (cbn; tauto).
  destruct (fetch_mock_news_in_range now "Large Cap FNO" tf Hs Hr) as (q & Hq & ->).
  cbn in Hq. injection Hq as <-.
  do 2 eexists. split; [reflexivity|]. split; [reflexivity|].
  split; vm_compute; reflexivity.
Qed.

Lemma large_cap_fno_third_url_witness :
  In "Last One Month" TIMEFRAME_OPTIONS
  /\ today_in_range clock_2024_01_15
  /\ exists articles a,
       fetch_mock_news clock_2024_01_15 "Large Cap FNO" "Last One Month" = Ok articles
       /\ nth_error articles 2 = Some a
       /\ title a = "(Large Cap FNO) Market Update: Nifty 50 Shows Volatility 3"
       /\ url a = "https://mock-news.com/large-cap-fno-3".
Proof.
  assert (Ht : In "Last One Month" TIMEFRAME_OPTIONS) by (cbn; tauto).
  assert (Hr : today_in_range clock_2024_01_15) by closed_dates.
  split; [exact Ht|]. split; [exact Hr|].
  exact (large_cap_fno_third_url clock_2024_01_15 _ Ht Hr).
Defined.

(** C10. For every valid segment and timeframe and every today, the five
    returned articles have pairwise distinct urls and pairwise distinct
    titles, and their dates, in the order of generation, increase strictly:
    each is exactly 5 days after the one before. *)
Theorem fetch_mock_news_articles_distinct_and_spaced :
  forall (now : Clock) (segment_key timeframe : string),
    In segment_key (dict_keys MARKET_SEGMENTS) ->
    In timeframe TIMEFRAME_OPTIONS ->
    today_in_range now ->
    exists articles,
      fetch_mock_news now segment_key timeframe = Ok articles
      /\ List.length articles = 5%nat
      /\ NoDup (List.map url articles)
      /\ NoDup (List.map title articles)
      /\ forall (k : nat) (a b : Article),
           nth_error articles k = Some a ->
           nth_error articles (S k) = Some b ->
           exists da db,
             parse_Ymd (date a) = Ok da /\ parse_Ymd (date b) = Ok db
             /\ db = da + 5 /\ da < db.
Proof.
  intros now seg tf Hseg _ Hr.
  destruct (fetch_mock_news_in_range now seg tf Hseg Hr) as (q & Hq & ->).
  pose proof (lookback_days_bounds tf) as Hb.
  apply today_in_range_bounds in Hr. destruct Hr as [Hlo Hhi].
  set (start := date_today now - lookback_days tf) in *.
  assert (Hnd : NoDup [1; 2; 3; 4; 5]).
  { repeat (constructor; [cbn; lia|]). constructor. }
  eexists. split; [reflexivity|]. split; [reflexivity|].
  split; [|split].
  - rewrite map_map. apply NoDup_map_NoDup_ForallPairs; [|exact Hnd].
    intros i j Hi Hj H. apply of_int_index_inj; try assumption.
    eapply mock_article_url_inj. exact H.
  - rewrite map_map. apply NoDup_map_NoDup_ForallPairs; [|exact Hnd].
    intros i j Hi Hj H. apply of_int_index_inj; try assumption.
    eapply mock_article_title_inj. exact H.
  - intros k a b Ha Hb'. cbn [List.map] in Ha, Hb'.
    do 4 (destruct k as [|k];
          [ cbn [nth_error] in Ha, Hb'; injection Ha as <-; injection Hb' as <-;
            do 2 eexists;
            split; [apply mock_article_date; lia|];
            split; [apply mock_article_date; lia|]; lia
          | ]).
    cbn [nth_error] in Hb'. destruct k; discriminate Hb'.
Qed.

Lemma fetch_mock_news_articles_distinct_and_spaced_witness :
  In "Small Cap FNO" (dict_keys MARKET_SEGMENTS)
  /\ In "Last Three Months" TIMEFRAME_OPTIONS
  /\ today_in_range clock_2024_01_15
  /\ exists articles,
       fetch_mock_news clock_2024_01_15 "Small Cap FNO" "Last Three Months"
       = Ok articles
       /\ NoDup (List.map url articles)
       /\ NoDup (List.map title articles).
Proof.
  assert (Hs : In "Small Cap FNO" (dict_keys MARKET_SEGMENTS)) by (cbn; tauto).
  assert (Ht : In "Last Three Months" TIMEFRAME_OPTIONS) by (cbn; tauto).
  assert (Hr : today_in_range clock_2024_01_15) by closed_dates.
  split; [exact Hs|]. split; [exact Ht|]. split; [exact Hr|].
  destruct (fetch_mock_news_articles_distinct_and_spaced clock_2024_01_15 _ _ Hs Ht Hr)
    as (articles & Hf & _ & Hu & Ht' & _).
  exists articles. repeat split; assumption.
Defined.

(** * Further properties of the code *)

(** ** Every outcome of [fetch_mock_news] *)

Lemma start_date_overflow : forall (today : Z) (timeframe : string),
  ~ 0 < today - lookback_days timeframe <= Calendar._MAXORDINAL ->
  (if String.eqb timeframe "Last One Week" then Calendar.date_sub today 7
   else if String.eqb timeframe "Last One Month" then Calendar.date_sub today 30
   else Calendar.date_sub today 90)
  = Raise OverflowError.
Proof.
  intros today tf. unfold lookback_days, Calendar.date_sub.
  destruct (String.eqb tf "Last One Week");
    [|destruct (String.eqb tf "Last One Month")];
    intros H; apply date_add_overflow; lia.
Qed.

Lemma fetch_mock_news_overflow :
  forall (now : Clock) (segment_key timeframe search_query : string),
    dict_getitem MARKET_SEGMENTS segment_key = Ok search_query ->
    ~ window_in_calendar now timeframe ->
    fetch_mock_news now segment_key timeframe = Raise OverflowError.
Proof.
  intros now seg tf q Hq Hw. unfold window_in_calendar in Hw.
  unfold fetch_mock_news. rewrite Hq. cbn [bind]. cbv zeta.
  set (start := date_today now - lookback_days tf) in *.
  destruct (Z_lt_dec 0 start) as [Hpos|Hneg];
    [destruct (Z_le_dec start Calendar._MAXORDINAL) as [Hle|Hgt]|].
  - unfold start. rewrite start_date_ok by (fold start; lia). fold start.
    cbn [bind]. change (range 1 (5 + 1)) with [1; 2; 3; 4; 5].
    cbn [for_each].
    do 5 (match goal with
          | |- context [Calendar.date_add start ?k] =>
              destruct (Z_le_dec (start + k) Calendar._MAXORDINAL);
              [ rewrite (date_add_ok start k) by lia; cbn [bind]
              | rewrite (date_add_overflow start k) by lia; reflexivity ]
          end).
    exfalso. lia.
  - unfold start. rewrite start_date_overflow by (fold start; lia). reflexivity.
  - unfold start. rewrite start_date_overflow by (fold start; lia). reflexivity.
Qed.

Lemma window_in_calendar_dec : forall (now : Clock) (timeframe : string),
  {window_in_calendar now timeframe} + {~ window_in_calendar now timeframe}.
Proof.
  intros now tf. unfold window_in_calendar.
  destruct (Z_lt_dec 0 (date_today now - lookback_days tf));
    destruct (Z_le_dec (date_today now - lookback_days tf + 25) Calendar._MAXORDINAL);
    (left; lia) || (right; lia).
Qed.

(** A call has one of three outcomes, decided by the key and by the day. *)
Lemma fetch_mock_news_cases :
  forall (now : Clock) (segment_key timeframe : string),
    (~ In segment_key (dict_keys MARKET_SEGMENTS)
     /\ fetch_mock_news now segment_key timeframe = Raise (KeyError segment_key))
    \/ (In segment_key (dict_keys MARKET_SEGMENTS)
        /\ ~ window_in_calendar now timeframe
        /\ fetch_mock_news now segment_key timeframe = Raise OverflowError)
    \/ (exists search_query,
          dict_getitem MARKET_SEGMENTS segment_key = Ok search_query
          /\ window_in_calendar now timeframe
          /\ fetch_mock_news now segment_key timeframe
             = Ok (List.map
                     (mock_article segment_key search_query timeframe
                        (date_today now - lookback_days timeframe))
                     [1; 2; 3; 4; 5])).
Proof.
  intros now seg tf.
  destruct (in_dec string_dec seg (dict_keys MARKET_SEGMENTS)) as [Hin|Hnin].
  - destruct (dict_getitem_in _ _ Hin) as [q Hq].
    destruct (window_in_calendar_dec now tf) as [Hw|Hw].
    + right. right. exists q. split; [assumption|]. split; [assumption|].
      destruct Hw. now apply fetch_mock_news_ok.
    + right. left. split; [assumption|]. split; [assumption|].
      now apply (fetch_mock_news_overflow now seg tf q).
  - left. split; [assumption|]. unfold fetch_mock_news.
    now rewrite (dict_getitem_missing _ _ Hnin).
Qed.

Lemma fetch_mock_news_inv :
  forall (now : Clock) (segment_key timeframe : string) (articles : list Article),
    fetch_mock_news now segment_key timeframe = Ok articles ->
    exists search_query,
      dict_getitem MARKET_SEGMENTS segment_key = Ok search_query
      /\ window_in_calendar now timeframe
      /\ articles
         = List.map
             (mock_article segment_key search_query timeframe
                (date_today now - lookback_days timeframe))
             [1; 2; 3; 4; 5].
Proof.
  intros now seg tf articles H.
  destruct (fetch_mock_news_cases now seg tf)
    as [[_ E] | [(_ & _ & E) | (q & Hq & Hw & E)]];
    rewrite E in H; try discriminate H.
  injection H as <-. now exists q.
Qed.

(** A call returns a list exactly when the segment is a key of
    [MARKET_SEGMENTS] and the start date and the fifth article's date are
    days of [datetime.date]; the timeframe label plays no part in it. *)
Theorem fetch_mock_news_succeeds_iff :
  forall (now : Clock) (segment_key timeframe : string),
    (exists articles, fetch_mock_news now segment_key timeframe = Ok articles)
    <-> In segment_key (dict_keys MARKET_SEGMENTS)
        /\ window_in_calendar now timeframe.
Proof.
  intros now seg tf. split.
  - intros [articles H].
    destruct (fetch_mock_news_inv now seg tf articles H) as (q & Hq & Hw & _).
    split; [|assumption]. eapply dict_getitem_ok_in. exact Hq.
  - intros [Hin Hw]. destruct (dict_getitem_in _ _ Hin) as [q Hq].
    destruct Hw. eexists. now apply (fetch_mock_news_ok now seg tf q).
Qed.

(** With a valid segment, a day too close to either end of the calendar
    makes the call raise [OverflowError]: no shorter list is returned when
    only some of the five dates exist. *)
Theorem fetch_mock_news_overflows_outside_calendar :
  forall (now : Clock) (segment_key timeframe : string),
    In segment_key (dict_keys MARKET_SEGMENTS) ->
    ~ window_in_calendar now timeframe ->
    fetch_mock_news now segment_key timeframe = Raise OverflowError.
Proof.
  intros now seg tf Hin Hw. destruct (dict_getitem_in _ _ Hin) as [q Hq].
  now apply (fetch_mock_news_overflow now seg tf q).
Qed.

Lemma fetch_mock_news_overflows_outside_calendar_witness :
  In "All FNO" (dict_keys MARKET_SEGMENTS)
  /\ ~ window_in_calendar clock_9999_12_31 "Last One Week"
  /\ fetch_mock_news clock_9999_12_31 "All FNO" "Last One Week" = Raise OverflowError.
Proof.
  assert (Hs : In "All FNO" (dict_keys MARKET_SEGMENTS)) by (cbn; tauto).
  assert (Hw : ~ window_in_calendar clock_9999_12_31 "Last One Week").
  { unfold window_in_calendar. intros [_ H]. vm_compute in H. now apply H. }
  split; [exact Hs|]. split; [exact Hw|].
  exact (fetch_mock_news_overflows_outside_calendar clock_9999_12_31 _ _ Hs Hw).
Defined.

(** Whatever the arguments and the day, a list that [fetch_mock_news]
    returns has exactly five articles: never none, never fewer. *)
Theorem fetch_mock_news_returns_five_or_raises :
  forall (now : Clock) (segment_key timeframe : string) (articles : list Article),
    fetch_mock_news now segment_key timeframe = Ok articles ->
    List.length articles = 5%nat.
Proof.
  intros now seg tf articles H.
  destruct (fetch_mock_news_inv now seg tf articles H) as (q & _ & _ & ->).
  reflexivity.
Qed.

Lemma fetch_mock_news_returns_five_or_raises_witness :
  exists articles,
    fetch_mock_news clock_2024_01_15 "All FNO" "Next Year" = Ok articles
    /\ List.length articles = 5%nat.
Proof.
  eexists. split; [vm_compute; reflexivity|].
  apply (fetch_mock_news_returns_five_or_raises clock_2024_01_15 "All FNO" "Next Year").
  vm_compute. reflexivity.
Defined.

(** The publisher names rotate with the index: every returned list names
    "Financial Times 2", 3, 1, 2, 3, in that order. *)
Theorem fetch_mock_news_sources_rotate :
  forall (now : Clock) (segment_key timeframe : string) (articles : list Article),
    fetch_mock_news now segment_key timeframe = Ok articles ->
    List.map source articles
    = [ "Financial Times 2"; "Financial Times 3"; "Financial Times 1";
        "Financial Times 2"; "Financial Times 3" ].
Proof.
  intros now seg tf articles H.
  destruct (fetch_mock_news_inv now seg tf articles H) as (q & _ & _ & ->).
  reflexivity.
Qed.

Lemma fetch_mock_news_sources_rotate_witness :
  exists articles,
    fetch_mock_news clock_2024_03_01 "Mid Cap FNO" "Last One Month" = Ok articles
    /\ List.map source articles
       = [ "Financial Times 2"; "Financial Times 3"; "Financial Times 1";
           "Financial Times 2"; "Financial Times 3" ].
Proof.
  eexists. split; [vm_compute; reflexivity|].
  apply (fetch_mock_news_sources_rotate clock_2024_03_01 "Mid Cap FNO" "Last One Month").
  vm_compute. reflexivity.
Defined.

(** Only the dates depend on the day: two calls for the same segment, on
    any two days and with any two timeframes, return the same titles,
    sources and urls, and with the same timeframe the same summaries too. *)
Theorem only_dates_depend_on_the_day :
  forall (now1 now2 : Clock) (segment_key timeframe1 timeframe2 : string)
         (articles1 articles2 : list Article),
    fetch_mock_news now1 segment_key timeframe1 = Ok articles1 ->
    fetch_mock_news now2 segment_key timeframe2 = Ok articles2 ->
    List.map title articles1 = List.map title articles2
    /\ List.map source articles1 = List.map source articles2
    /\ List.map url articles1 = List.map url articles2
    /\ (timeframe1 = timeframe2 ->
        List.map summary articles1 = List.map summary articles2).
Proof.
  intros now1 now2 seg tf1 tf2 l1 l2 H1 H2.
  destruct (fetch_mock_news_inv now1 seg tf1 l1 H1) as (q1 & Hq1 & _ & ->).
  destruct (fetch_mock_news_inv now2 seg tf2 l2 H2) as (q2 & Hq2 & _ & ->).
  assert (q2 = q1) by congruence. subst q2.
  repeat split; try reflexivity. intros ->. reflexivity.
Qed.

Lemma only_dates_depend_on_the_day_witness :
  exists articles1 articles2,
    fetch_mock_news clock_2024_01_15 "Small Cap FNO" "Last One Week" = Ok articles1
    /\ fetch_mock_news clock_2024_03_01 "Small Cap FNO" "Last Three Months" = Ok articles2
    /\ List.map date articles1 <> List.map date articles2
    /\ List.map title articles1 = List.map title articles2
    /\ List.map url articles1 = List.map url articles2.
Proof.
  do 2 eexists.
  split; [vm_compute; reflexivity|]. split; [vm_compute; reflexivity|].
  split; [vm_compute; discriminate|].
  destruct (only_dates_depend_on_the_day clock_2024_01_15 clock_2024_03_01
              "Small Cap FNO" "Last One Week" "Last Three Months" _ _
              ltac:(vm_compute; reflexivity) ltac:(vm_compute; reflexivity))
    as (Ht & _ & Hu & _).
  split; [exact Ht | exact Hu].
Defined.

(** ** The url slug *)

Lemma str_map_length : forall (f : ascii -> ascii) (s : string),
  String.length (Str.map f s) = String.length s.
Proof. intros f s. induction s as [|c s IH]; cbn; congruence. Qed.

Lemma str_map_chars : forall (f : ascii -> ascii) (s : string) (c : ascii),
  In c (list_ascii_of_string (Str.map f s)) ->
  exists c0, In c0 (list_ascii_of_string s) /\ c = f c0.
Proof.
  intros f s c. induction s as [|c1 s IH]; cbn; [tauto|].
  intros [<- | H].
  - exists c1. split; [now left|reflexivity].
  - destruct (IH H) as (c0 & Hin & ->). exists c0. split; [now right|reflexivity].
Qed.

Lemma slug_char : forall c0 : ascii,
  let c := Str.lower_char (if Ascii.eqb c0 " " then "-"%char else c0) in
  c <> " "%char /\ is_upper c = false.
Proof.
  intros [[] [] [] [] [] [] [] []]; split;
    first [discriminate | reflexivity].
Qed.

(** Every url a call returns is "https://mock-news.com/", a slug, a hyphen
    and a suffix; the slug is as long as the segment key and holds neither
    a space nor an upper-case letter. *)
Theorem fetch_mock_news_url_slug :
  forall (now : Clock) (segment_key timeframe : string)
         (articles : list Article) (a : Article),
    fetch_mock_news now segment_key timeframe = Ok articles ->
    In a articles ->
    exists slug suffix,
      url a = "https://mock-news.com/" ++ slug ++ "-" ++ suffix
      /\ String.length slug = String.length segment_key
      /\ forall c, In c (list_ascii_of_string slug) ->
           c <> " "%char /\ is_upper c = false.
Proof.
  intros now seg tf articles a H Ha.
  destruct (fetch_mock_news_inv now seg tf articles H) as (q & _ & _ & ->).
  apply in_map_iff in Ha. destruct Ha as (i & <- & _).
  exists (Str.lower (Str.replace " " "-" seg)), (Str.of_int i).
  split; [reflexivity|]. split.
  - unfold Str.lower, Str.replace. now rewrite !str_map_length.
  - intros c Hc. unfold Str.lower, Str.replace in Hc.
    apply str_map_chars in Hc. destruct Hc as (c1 & Hc1 & ->).
    apply str_map_chars in Hc1. destruct Hc1 as (c0 & _ & ->).
    apply slug_char.
Qed.

Lemma fetch_mock_news_url_slug_witness :
  exists articles a,
    fetch_mock_news clock_2024_01_15 "Small Cap FNO" "Last One Week" = Ok articles
    /\ In a articles
    /\ exists slug suffix,
         url a = "https://mock-news.com/" ++ slug ++ "-" ++ suffix
         /\ String.length slug = String.length "Small Cap FNO"
         /\ forall c, In c (list_ascii_of_string slug) ->
              c <> " "%char /\ is_upper c = false.
Proof.
  assert (H : fetch_mock_news clock_2024_01_15 "Small Cap FNO" "Last One Week"
              = Ok (List.map (mock_article "Small Cap FNO"
                                "Nifty Smallcap 100, Smallcap FNO news"
                                "Last One Week" 738893) [1; 2; 3; 4; 5]))
    by (vm_compute; reflexivity).
  do 2 eexists. split; [exact H|]. split; [left; reflexivity|].
  apply (fetch_mock_news_url_slug clock_2024_01_15 "Small Cap FNO" "Last One Week" _ _ H).
  left. reflexivity.
Defined.

(** ** The date column, written and read back *)



(** ** The data frame on any list of articles *)






(** On any frame, sorting by date loses and invents no row and leaves the
    rows newest first. *)
Theorem sort_values_date_desc_sorts :
  forall rows : list Row,
    Permutation rows (sort_values_date_desc rows)
    /\ List.length (sort_values_date_desc rows) = List.length rows
    /\ forall a b, adjacent a b (sort_values_date_desc rows) ->
         row_date a >= row_date b.
Proof.
  intros rows. split; [apply sort_values_date_desc_perm|]. split.
  - symmetry. apply Permutation_length, sort_values_date_desc_perm.
  - intros a b. apply sorted_adjacent, sort_values_date_desc_sorted.
Qed.

(** ** The main content block *)

(** The branch that reports "No news found" is never taken: for no flag,
    day, segment or timeframe does the block end there. *)
Theorem main_content_never_reports_no_news :
  forall (Timestamp_min Timestamp_max : Z) (run_fetch : bool) (now : Clock)
         (selected_segment selected_timeframe : string),
    main_content Timestamp_min Timestamp_max run_fetch now
      selected_segment selected_timeframe
    <> Ok NoNewsFound.
Proof.
  intros tmin tmax run_fetch now seg tf. unfold main_content.
  destruct run_fetch; [|discriminate].
  destruct (fetch_mock_news now seg tf) as [articles|e] eqn:H; cbn [bind];
    [|discriminate].
  destruct (fetch_mock_news_inv now seg tf articles H) as (q & _ & _ & ->).
  cbn [List.map].
  destruct (to_frame tmin tmax _) as [rows|e]; cbn [bind]; discriminate.
Qed.

(** With the flag set, the block shows the generated articles in the
    reverse of the order in which [fetch_mock_news] returns them, each with
    its own title, source, summary and url, and with the day its date text
    stands for. *)
Theorem main_content_reverses_generation_order :
  forall (Timestamp_min Timestamp_max : Z) (now : Clock)
         (segment_key timeframe : string),
    In segment_key (dict_keys MARKET_SEGMENTS) ->
    today_in_range now ->
    timestamps_cover Timestamp_min Timestamp_max now ->
    exists articles rows,
      fetch_mock_news now segment_key timeframe = Ok articles
      /\ main_content Timestamp_min Timestamp_max true now segment_key timeframe
         = Ok (Expanders rows)
      /\ List.map row_title rows = rev (List.map title articles)
      /\ List.map row_source rows = rev (List.map source articles)
      /\ List.map row_summary rows = rev (List.map summary articles)
      /\ List.map row_url rows = rev (List.map url articles)
      /\ Forall2 (fun r a => parse_Ymd (date a) = Ok (row_date r))
                 rows (rev articles).
Proof.
  intros tmin tmax now seg tf Hseg Hr Hc.
  destruct (dict_getitem_in _ _ Hseg) as [q Hq].
  pose proof (main_content_rows tmin tmax now seg tf q Hq Hr Hc) as Hrows.
  pose proof (lookback_days_bounds tf) as Hb.
  apply today_in_range_bounds in Hr. destruct Hr as [Hlo Hhi].
  do 2 eexists. split; [apply (fetch_mock_news_ok now seg tf q Hq); lia|].
  split; [exact Hrows|].
  cbv zeta. cbn [List.map rev app].
  repeat (split; [reflexivity|]).
  repeat (constructor; [cbn [row_date row_of_article]; apply mock_article_date; lia|]).
  constructor.
Qed.

Lemma main_content_reverses_generation_order_witness :
  In "Mid Cap FNO" (dict_keys MARKET_SEGMENTS)
  /\ today_in_range clock_2024_01_15
  /\ timestamps_cover Timestamp_min_ns Timestamp_max_ns clock_2024_01_15
  /\ exists articles rows,
       fetch_mock_news clock_2024_01_15 "Mid Cap FNO" "Last One Week" = Ok articles
       /\ main_content Timestamp_min_ns Timestamp_max_ns true clock_2024_01_15
            "Mid Cap FNO" "Last One Week" = Ok (Expanders rows)
       /\ List.map row_url rows = rev (List.map url articles).
Proof.
  assert (Hs : In "Mid Cap FNO" (dict_keys MARKET_SEGMENTS)) by (cbn; tauto).
  assert (Hr : today_in_range clock_2024_01_15) by closed_dates.
  assert (Hc : timestamps_cover Timestamp_min_ns Timestamp_max_ns clock_2024_01_15)
    by closed_dates.
  split; [exact Hs|]. split; [exact Hr|]. split; [exact Hc|].
  destruct (main_content_reverses_generation_order Timestamp_min_ns Timestamp_max_ns
              clock_2024_01_15 "Mid Cap FNO" "Last One Week" Hs Hr Hc)
    as (articles & rows & Hf & Hm & _ & _ & _ & Hu & _).
  exists articles, rows. repeat split; assumption.
Defined.

Lemma to_datetime_out_of_bounds : forall (tmin tmax : Z) (s : string) (d : Z),
  parse_Ymd s = Ok d -> ~ tmin <= d <= tmax ->
  to_datetime tmin tmax s = Raise OutOfBoundsDatetime.
Proof.
  intros tmin tmax s d Hp Hb. unfold to_datetime. rewrite Hp. cbn [bind].
  destruct (Z.leb_spec tmin d); [|reflexivity].
  destruct (Z.leb_spec d tmax); [lia|reflexivity].
Qed.

(** When one of the five dates does not fit a [pandas.Timestamp], the
    block raises [OutOfBoundsDatetime] and shows no article at all. *)
Theorem main_content_out_of_timestamp_range :
  forall (Timestamp_min Timestamp_max : Z) (now : Clock)
         (segment_key timeframe : string),
    In segment_key (dict_keys MARKET_SEGMENTS) ->
    today_in_range now ->
    ~ (Timestamp_min <= date_today now - lookback_days timeframe + 5
       /\ date_today now - lookback_days timeframe + 25 <= Timestamp_max) ->
    main_content Timestamp_min Timestamp_max true now segment_key timeframe
    = Raise OutOfBoundsDatetime.
Proof.
  intros tmin tmax now seg tf Hseg Hr Hout.
  destruct (dict_getitem_in _ _ Hseg) as [q Hq].
  pose proof (lookback_days_bounds tf) as Hb.
  apply today_in_range_bounds in Hr. destruct Hr as [Hlo Hhi].
  unfold main_content. rewrite (fetch_mock_news_ok now seg tf q Hq) by lia.
  cbn [bind List.map].
  set (start := date_today now - lookback_days tf) in *.
  unfold to_frame. cbn [for_each].
  do 5 (match goal with
        | |- context [to_datetime tmin tmax (date (mock_article seg q tf start ?i))] =>
            destruct (Z_le_dec tmin (start + i * 5));
            [ destruct (Z_le_dec (start + i * 5) tmax);
              [ rewrite (to_datetime_ok tmin tmax _ (start + i * 5))
                  by (try apply mock_article_date; lia);
                cbn [bind]
              | rewrite (to_datetime_out_of_bounds tmin tmax _ (start + i * 5))
                  by (try apply mock_article_date; lia);
                reflexivity ]
            | rewrite (to_datetime_out_of_bounds tmin tmax _ (start + i * 5))
                by (try apply mock_article_date; lia);
              reflexivity ]
        end).
  exfalso. lia.
Qed.

Lemma main_content_out_of_timestamp_range_witness :
  In "All FNO" (dict_keys MARKET_SEGMENTS)
  /\ today_in_range clock_2300_06_01
  /\ main_content Timestamp_min_ns Timestamp_max_ns true clock_2300_06_01
       "All FNO" "Last One Month" = Raise OutOfBoundsDatetime.
Proof.
  assert (Hs : In "All FNO" (dict_keys MARKET_SEGMENTS)) by (cbn; tauto).
  assert (Hr : today_in_range clock_2300_06_01) by closed_dates.
  split; [exact Hs|]. split; [exact Hr|].
  apply (main_content_out_of_timestamp_range Timestamp_min_ns Timestamp_max_ns
           clock_2300_06_01 "All FNO" "Last One Month" Hs Hr).
  intros [_ H]. vm_compute in H. now apply H.
Defined.

(** ** Every outcome of the main content block *)

Lemma main_content_window_rows :
  forall (tmin tmax : Z) (now : Clock) (segment_key timeframe search_query : string),
    dict_getitem MARKET_SEGMENTS segment_key = Ok search_query ->
    window_in_calendar now timeframe ->
    tmin <= date_today now - lookback_days timeframe + 5 ->
    date_today now - lookback_days timeframe + 25 <= tmax ->
    main_content tmin tmax true now segment_key timeframe
    = Ok (Expanders
            (List.map
               (fun i =>
                  let start := date_today now - lookback_days timeframe in
                  row_of_article
                    (mock_article segment_key search_query timeframe start i)
                    (start + i * 5))
               [5; 4; 3; 2; 1])).
Proof.
  intros tmin tmax now seg tf q Hq [Hlo Hhi] Cmin Cmax.
  unfold main_content. rewrite (fetch_mock_news_ok now seg tf q Hq) by lia.
  cbn [bind List.map]. cbv zeta.
  set (start := date_today now - lookback_days tf) in *.
  rewrite (to_frame_ok tmin tmax _
             [start + 1 * 5; start + 2 * 5; start + 3 * 5; start + 4 * 5; start + 5 * 5]).
  - cbn [bind combine List.map fst snd].
    rewrite sort_values_date_desc_increasing; [reflexivity|].
    repeat (constructor; [|repeat (constructor; cbn [row_date row_of_article]; try lia)]).
    constructor.
  - repeat (constructor;
            [apply to_datetime_ok; [apply mock_article_date|]; lia|]).
    constructor.
Qed.

Lemma main_content_window_out_of_bounds :
  forall (tmin tmax : Z) (now : Clock) (segment_key timeframe search_query : string),
    dict_getitem MARKET_SEGMENTS segment_key = Ok search_query ->
    window_in_calendar now timeframe ->
    ~ (tmin <= date_today now - lookback_days timeframe + 5
       /\ date_today now - lookback_days timeframe + 25 <= tmax) ->
    main_content tmin tmax true now segment_key timeframe
    = Raise OutOfBoundsDatetime.
Proof.
  intros tmin tmax now seg tf q Hq [Hlo Hhi] Hout.
  unfold main_content. rewrite (fetch_mock_news_ok now seg tf q Hq) by lia.
  cbn [bind List.map].
  set (start := date_today now - lookback_days tf) in *.
  unfold to_frame. cbn [for_each].
  do 5 (match goal with
        | |- context [to_datetime tmin tmax (date (mock_article seg q tf start ?i))] =>
            destruct (Z_le_dec tmin (start + i * 5));
            [ destruct (Z_le_dec (start + i * 5) tmax);
              [ rewrite (to_datetime_ok tmin tmax _ (start + i * 5))
                  by (try apply mock_article_date; lia);
                cbn [bind]
              | rewrite (to_datetime_out_of_bounds tmin tmax _ (start + i * 5))
                  by (try apply mock_article_date; lia);
                reflexivity ]
            | rewrite (to_datetime_out_of_bounds tmin tmax _ (start + i * 5))
                by (try apply mock_article_date; lia);
              reflexivity ]
        end).
  exfalso. lia.
Qed.

(** With the flag set and a segment of [MARKET_SEGMENTS], the block either
    shows five rows, newest first, or ends with [OverflowError] or
    [OutOfBoundsDatetime]. *)
Lemma main_content_valid_segment :
  forall (tmin tmax : Z) (now : Clock) (segment_key timeframe : string),
    In segment_key (dict_keys MARKET_SEGMENTS) ->
    let out := main_content tmin tmax true now segment_key timeframe in
    out = Raise OverflowError
    \/ out = Raise OutOfBoundsDatetime
    \/ exists rows,
         out = Ok (Expanders rows)
         /\ List.length rows = 5%nat
         /\ forall a b, adjacent a b rows -> row_date a >= row_date b.
Proof.
  intros tmin tmax now seg tf Hseg out. subst out.
  destruct (dict_getitem_in _ _ Hseg) as [q Hq].
  destruct (window_in_calendar_dec now tf) as [Hw|Hw].
  - destruct (Z_le_dec tmin (date_today now - lookback_days tf + 5)) as [Hmin|Hmin];
      [destruct (Z_le_dec (date_today now - lookback_days tf + 25) tmax) as [Hmax|Hmax]|].
    + right. right. rewrite (main_content_window_rows tmin tmax now seg tf q Hq Hw Hmin Hmax).
      eexists. split; [reflexivity|]. split; [reflexivity|].
      intros a b Hadj. eapply sorted_adjacent; [|exact Hadj].
      cbn [List.map]. cbv zeta.
      repeat (constructor; [|first [constructor; unfold newer_or_same;
                                    cbn [row_date row_of_article]; lia
                                   |constructor]]).
      constructor.
    + right. left. apply (main_content_window_out_of_bounds tmin tmax now seg tf q Hq Hw). lia.
    + right. left. apply (main_content_window_out_of_bounds tmin tmax now seg tf q Hq Hw). lia.
  - left. unfold main_content.
    now rewrite (fetch_mock_news_overflow now seg tf q Hq Hw).
Qed.

(** From the year 1000 on, where the date text has its four-digit year, the
    block has five outcomes and no other: nothing shown (flag clear),
    [KeyError] on the segment, [OverflowError], [OutOfBoundsDatetime], or
    exactly five rows, newest first. It never shows fewer rows and never
    ends with another exception. *)
Theorem main_content_outcomes :
  forall (Timestamp_min Timestamp_max : Z) (run_fetch : bool) (now : Clock)
         (selected_segment selected_timeframe : string),
    first_wide_year_day + 90 <= date_today now ->
    let out :=
      main_content Timestamp_min Timestamp_max run_fetch now
        selected_segment selected_timeframe in
    (run_fetch = false /\ out = Ok Blank)
    \/ (~ In selected_segment (dict_keys MARKET_SEGMENTS)
        /\ out = Raise (KeyError selected_segment))
    \/ out = Raise OverflowError
    \/ out = Raise OutOfBoundsDatetime
    \/ exists rows,
         out = Ok (Expanders rows)
         /\ List.length rows = 5%nat
         /\ forall a b, adjacent a b rows -> row_date a >= row_date b.
Proof.
  intros tmin tmax run_fetch now seg tf _ out. subst out.
  destruct run_fetch; [|left; split; reflexivity].
  right.
  destruct (in_dec string_dec seg (dict_keys MARKET_SEGMENTS)) as [Hin|Hnin].
  - right. apply main_content_valid_segment. exact Hin.
  - left. split; [exact Hnin|]. unfold main_content, fetch_mock_news.
    now rewrite (dict_getitem_missing _ _ Hnin).
Qed.

Lemma main_content_outcomes_witness :
  first_wide_year_day + 90 <= date_today clock_9999_12_31
  /\ let out :=
       main_content Timestamp_min_ns Timestamp_max_ns true clock_9999_12_31
         "Mid Cap FNO" "Last Three Months" in
     (true = false /\ out = Ok Blank)
     \/ (~ In "Mid Cap FNO" (dict_keys MARKET_SEGMENTS)
         /\ out = Raise (KeyError "Mid Cap FNO"))
     \/ out = Raise OverflowError
     \/ out = Raise OutOfBoundsDatetime
     \/ exists rows,
          out = Ok (Expanders rows)
          /\ List.length rows = 5%nat
          /\ forall a b, adjacent a b rows -> row_date a >= row_date b.
Proof.
  assert (Hy : first_wide_year_day + 90 <= date_today clock_9999_12_31)
    by (vm_compute; discriminate).
  split; [exact Hy|].
  exact (main_content_outcomes Timestamp_min_ns Timestamp_max_ns true
           clock_9999_12_31 "Mid Cap FNO" "Last Three Months" Hy).
Defined.

(** ** The script, run by run *)

Lemma selectbox_in : forall (options : list string) (index : nat)
                            (picked : option nat) (choice : string),
  selectbox options index picked = Some choice -> In choice options.
Proof. intros options index picked choice H. eapply nth_error_In. exact H. Qed.

Lemma run_script_inv :
  forall (tmin tmax : Z) (now : Clock) (widgets : Widgets)
         (session session' : option bool) (out : result Display),
    run_script tmin tmax now widgets session = Some (session', out) ->
    exists segment timeframe,
      In segment (dict_keys MARKET_SEGMENTS)
      /\ In timeframe TIMEFRAME_OPTIONS
      /\ session' = sidebar_run_fetch (button_pressed widgets) session
      /\ out = main_content tmin tmax
                 (match session' with Some flag => flag | None => false end)
                 now segment timeframe.
Proof.
  intros tmin tmax now widgets session session' out H. unfold run_script in H.
  destruct (selectbox (dict_keys MARKET_SEGMENTS) 0 (picked_segment widgets))
    as [seg|] eqn:Hseg; [|discriminate H].
  destruct (selectbox TIMEFRAME_OPTIONS 1 (picked_timeframe widgets))
    as [tf|] eqn:Htf; [|discriminate H].
  cbv zeta in H. injection H as <- <-.
  exists seg, tf. split; [eapply selectbox_in; exact Hseg|].
  split; [eapply selectbox_in; exact Htf|]. split; reflexivity.
Qed.

Lemma session_after_set :
  forall (tmin tmax : Z) (runs : list (Clock * Widgets))
         (session session_end : option bool),
    session = None \/ session = Some true ->
    session_after tmin tmax runs session = Some session_end ->
    session_end = None \/ session_end = Some true.
Proof.
  intros tmin tmax runs. induction runs as [|[now widgets] runs IH];
    intros session session_end Hs H; cbn [session_after] in H.
  - injection H as <-. exact Hs.
  - destruct (run_script tmin tmax now widgets session) as [[s' out]|] eqn:Hrun;
      [|discriminate H].
    apply (IH s' session_end); [|exact H].
    destruct (run_script_inv _ _ _ _ _ _ _ Hrun) as (_ & _ & _ & _ & -> & _).
    right. destruct Hs as [-> | ->]; destruct (button_pressed widgets); reflexivity.
Qed.

(** Whatever the user picks in the two select boxes, the script passes
    [fetch_mock_news] a key of [MARKET_SEGMENTS]: no run ends with
    [KeyError]. *)
Theorem run_script_never_KeyError :
  forall (Timestamp_min Timestamp_max : Z) (now : Clock) (widgets : Widgets)
         (session session' : option bool) (out : result Display) (key : string),
    run_script Timestamp_min Timestamp_max now widgets session = Some (session', out) ->
    out <> Raise (KeyError key).
Proof.
  intros tmin tmax now widgets session session' out key H.
  destruct (run_script_inv _ _ _ _ _ _ _ H) as (seg & tf & Hseg & _ & _ & ->).
  destruct (match session' with Some flag => flag | None => false end).
  - pose proof (main_content_valid_segment tmin tmax now seg tf Hseg) as Hout.
    cbv zeta in Hout.
    destruct Hout as [-> | [-> | (rows & -> & _)]]; discriminate.
  - discriminate.
Qed.

Lemma run_script_never_KeyError_witness :
  exists session' out,
    run_script Timestamp_min_ns Timestamp_max_ns clock_2024_01_15
      {| picked_segment := Some 3%nat; picked_timeframe := None;
         button_pressed := false |} None
    = Some (session', out)
    /\ out <> Raise (KeyError "All FNO").
Proof.
  assert (H : run_script Timestamp_min_ns Timestamp_max_ns clock_2024_01_15
                {| picked_segment := Some 3%nat; picked_timeframe := None;
                   button_pressed := false |} None
              = Some (Some true,
                      main_content Timestamp_min_ns Timestamp_max_ns true
                        clock_2024_01_15 "All FNO" "Last One Month"))
    by reflexivity.
  do 2 eexists. split; [exact H|].
  exact (run_script_never_KeyError _ _ _ _ _ _ _ "All FNO" H).
Defined.

(** In a session that starts with an empty [st.session_state], every run,
    the first one and each one after, leaves the flag set and renders the
    main content: the page is never blank, whether or not the button was
    pressed. *)
Theorem session_never_idle :
  forall (Timestamp_min Timestamp_max : Z) (runs : list (Clock * Widgets))
         (session : option bool) (now : Clock) (widgets : Widgets)
         (session' : option bool) (out : result Display),
    session_after Timestamp_min Timestamp_max runs None = Some session ->
    run_script Timestamp_min Timestamp_max now widgets session = Some (session', out) ->
    session' = Some true /\ out <> Ok Blank /\ out <> Ok NoNewsFound.
Proof.
  intros tmin tmax runs session now widgets session' out Hruns Hrun.
  pose proof (session_after_set tmin tmax runs None session (or_introl eq_refl) Hruns)
    as Hs.
  destruct (run_script_inv _ _ _ _ _ _ _ Hrun) as (seg & tf & Hseg & _ & Hs' & ->).
  assert (E : session' = Some true).
  { rewrite Hs'. destruct Hs as [-> | ->]; destruct (button_pressed widgets); reflexivity. }
  subst session'. rewrite E. split; [reflexivity|].
  pose proof (main_content_valid_segment tmin tmax now seg tf Hseg) as Hout.
  cbv zeta in Hout.
  destruct Hout as [-> | [-> | (rows & -> & _)]]; split; discriminate.
Qed.

Lemma session_never_idle_witness :
  exists session session' out,
    session_after Timestamp_min_ns Timestamp_max_ns
      [ (clock_2024_01_15,
         {| picked_segment := None; picked_timeframe := None; button_pressed := false |});
        (clock_2024_01_15_noon,
         {| picked_segment := Some 1%nat; picked_timeframe := Some 0%nat;
            button_pressed := true |}) ] None
    = Some session
    /\ run_script Timestamp_min_ns Timestamp_max_ns clock_2024_03_01
         {| picked_segment := Some 2%nat; picked_timeframe := Some 2%nat;
            button_pressed := false |} session
       = Some (session', out)
    /\ session' = Some true /\ out <> Ok Blank /\ out <> Ok NoNewsFound.
Proof.
  assert (H1 : session_after Timestamp_min_ns Timestamp_max_ns
                 [ (clock_2024_01_15,
                    {| picked_segment := None; picked_timeframe := None;
                       button_pressed := false |});
                   (clock_2024_01_15_noon,
                    {| picked_segment := Some 1%nat; picked_timeframe := Some 0%nat;
                       button_pressed := true |}) ] None
               = Some (Some true)) by reflexivity.
  assert (H2 : run_script Timestamp_min_ns Timestamp_max_ns clock_2024_03_01
                 {| picked_segment := Some 2%nat; picked_timeframe := Some 2%nat;
                    button_pressed := false |} (Some true)
               = Some (Some true,
                       main_content Timestamp_min_ns Timestamp_max_ns true
                         clock_2024_03_01 "Small Cap FNO" "Last Three Months"))
    by reflexivity.
  exists (Some true), (Some true),
    (main_content Timestamp_min_ns Timestamp_max_ns true
       clock_2024_03_01 "Small Cap FNO" "Last Three Months").
  split; [exact H1|]. split; [exact H2|].
  exact (session_never_idle _ _ _ _ _ _ _ _ H1 H2).
Defined.

(** In such a session, on a day inside the calendar and the [Timestamp]
    range, every run shows exactly five articles, newest first, for
    whatever the user selected. *)
Theorem run_script_shows_five_newest_first :
  forall (Timestamp_min Timestamp_max : Z) (runs : list (Clock * Widgets))
         (session : option bool) (now : Clock) (widgets : Widgets)
         (session' : option bool) (out : result Display),
    session_after Timestamp_min Timestamp_max runs None = Some session ->
    run_script Timestamp_min Timestamp_max now widgets session = Some (session', out) ->
    today_in_range now ->
    timestamps_cover Timestamp_min Timestamp_max now ->
    exists rows,
      out = Ok (Expanders rows)
      /\ List.length rows = 5%nat
      /\ forall a b, adjacent a b rows -> row_date a >= row_date b.
Proof.
  intros tmin tmax runs session now widgets session' out Hruns Hrun Hr Hc.
  pose proof (session_after_set tmin tmax runs None session (or_introl eq_refl) Hruns)
    as Hs.
  destruct (run_script_inv _ _ _ _ _ _ _ Hrun) as (seg & tf & Hseg & _ & Hs' & ->).
  assert (E : session' = Some true).
  { rewrite Hs'. destruct Hs as [-> | ->]; destruct (button_pressed widgets); reflexivity. }
  subst session'. rewrite E.
  destruct (dict_getitem_in _ _ Hseg) as [q Hq].
  pose proof (lookback_days_bounds tf) as Hb.
  rewrite (main_content_rows tmin tmax now seg tf q Hq Hr Hc).
  apply today_in_range_bounds in Hr. destruct Hr as [Hlo Hhi].
  eexists. split; [reflexivity|]. split; [reflexivity|].
  intros a b Hadj. eapply sorted_adjacent; [|exact Hadj].
  cbn [List.map]. cbv zeta.
  repeat (constructor; [|first [constructor; unfold newer_or_same;
                                cbn [row_date row_of_article]; lia
                               |constructor]]).
  constructor.
Qed.

Lemma run_script_shows_five_newest_first_witness :
  today_in_range clock_2024_03_01
  /\ timestamps_cover Timestamp_min_ns Timestamp_max_ns clock_2024_03_01
  /\ exists session' rows,
       run_script Timestamp_min_ns Timestamp_max_ns clock_2024_03_01
         {| picked_segment := None; picked_timeframe := None;
            button_pressed := false |} None
       = Some (session', Ok (Expanders rows))
       /\ List.length rows = 5%nat.
Proof.
  assert (Hr : today_in_range clock_2024_03_01) by closed_dates.
  assert (Hc : timestamps_cover Timestamp_min_ns Timestamp_max_ns clock_2024_03_01)
    by closed_dates.
  split; [exact Hr|]. split; [exact Hc|].
  destruct (run_script_shows_five_newest_first Timestamp_min_ns Timestamp_max_ns
              [] None clock_2024_03_01
              {| picked_segment := None; picked_timeframe := None;
                 button_pressed := false |}
              (Some true)
              (main_content Timestamp_min_ns Timestamp_max_ns true clock_2024_03_01
                 "Large Cap FNO" "Last One Month")
              eq_refl eq_refl Hr Hc)
    as (rows & Hout & Hlen & _).
  exists (Some true), rows. split; [|exact Hlen].
  change (run_script Timestamp_min_ns Timestamp_max_ns clock_2024_03_01
            {| picked_segment := None; picked_timeframe := None;
               button_pressed := false |} None)
    with (Some (Some true,
                main_content Timestamp_min_ns Timestamp_max_ns true clock_2024_03_01
                  "Large Cap FNO" "Last One Month")).
  rewrite Hout. reflexivity.
Defined.

(** ** The query term of a title *)

Lemma split_first_no_sep : forall (sep : ascii) (s : string),
  ~ In sep (list_ascii_of_string (Str.split_first sep s)).
Proof.
  intros sep s. induction s as [|c s IH]; cbn; [tauto|].
  destruct (Ascii.eqb_spec c sep) as [->|Hne]; cbn; [tauto|].
  intros [H | H]; [now apply Hne|now apply IH].
Qed.

Lemma lstrip_chars : forall (s : string) (c : ascii),
  In c (list_ascii_of_string (Str.lstrip s)) -> In c (list_ascii_of_string s).
Proof.
  intros s c. induction s as [|c0 s IH]; cbn; [tauto|].
  destruct (Str.isspace c0); [intros H; right; now apply IH|tauto].
Qed.

Lemma rstrip_chars : forall (s : string) (c : ascii),
  In c (list_ascii_of_string (Str.rstrip s)) -> In c (list_ascii_of_string s).
Proof.
  intros s c. induction s as [|c0 s IH]; cbn [Str.rstrip]; [tauto|].
  destruct (Str.rstrip s) as [|c1 r] eqn:E.
  - destruct (Str.isspace c0); cbn; tauto.
  - cbn [list_ascii_of_string In]. intros [H | H]; [now left|right; now apply IH].
Qed.

Lemma lstrip_first : forall (s : string) (c : ascii),
  first_char (Str.lstrip s) = Some c -> Str.isspace c = false.
Proof.
  intros s c. induction s as [|c0 s IH]; cbn [Str.lstrip]; [discriminate|].
  destruct (Str.isspace c0) eqn:E; [exact IH|].
  cbn. intros H. injection H as <-. exact E.
Qed.

Lemma rstrip_first : forall (s : string) (c : ascii),
  first_char s = Some c -> Str.isspace c = false ->
  first_char (Str.rstrip s) = Some c.
Proof.
  intros [|c0 s] c; cbn [first_char Str.rstrip]; [discriminate|].
  intros H Hc. injection H as ->.
  destruct (Str.rstrip s); [rewrite Hc|]; reflexivity.
Qed.

Lemma rstrip_last : forall (s : string) (c : ascii),
  last_char (Str.rstrip s) = Some c -> Str.isspace c = false.
Proof.
  intros s c. induction s as [|c0 s IH]; cbn [Str.rstrip]; [discriminate|].
  destruct (Str.rstrip s) as [|c1 r] eqn:E.
  - destruct (Str.isspace c0) eqn:E0; cbn; [discriminate|].
    intros H. injection H as <-. exact E0.
  - intros H. apply IH. exact H.
Qed.

Lemma strip_ends : forall (s : string) (c : ascii),
  (first_char (Str.strip s) = Some c -> Str.isspace c = false)
  /\ (last_char (Str.strip s) = Some c -> Str.isspace c = false).
Proof.
  intros s c. unfold Str.strip. split; [|apply rstrip_last].
  destruct (first_char (Str.lstrip s)) as [c0|] eqn:E.
  - pose proof (lstrip_first s c0 E) as Hc0.
    rewrite (rstrip_first _ c0 E Hc0). intros H. injection H as <-. exact Hc0.
  - destruct (Str.lstrip s); [cbn; discriminate|discriminate E].
Qed.

(** Every title a call returns reads "(segment) Market Update: term Shows
    Volatility index", where the term holds no comma and neither starts
    nor ends with white space. *)
Theorem fetch_mock_news_title_term :
  forall (now : Clock) (segment_key timeframe : string)
         (articles : list Article) (a : Article),
    fetch_mock_news now segment_key timeframe = Ok articles ->
    In a articles ->
    exists term index,
      title a = "(" ++ segment_key ++ ") Market Update: " ++ term
                ++ " Shows Volatility " ++ index
      /\ ~ In ","%char (list_ascii_of_string term)
      /\ (forall c, first_char term = Some c -> Str.isspace c = false)
      /\ (forall c, last_char term = Some c -> Str.isspace c = false).
Proof.
  intros now seg tf articles a H Ha.
  destruct (fetch_mock_news_inv now seg tf articles H) as (q & _ & _ & ->).
  apply in_map_iff in Ha. destruct Ha as (i & <- & _).
  exists (Str.strip (Str.split_first "," q)), (Str.of_int i).
  split; [reflexivity|]. split.
  - intros Hin. unfold Str.strip in Hin.
    apply rstrip_chars, lstrip_chars in Hin.
    exact (split_first_no_sep _ _ Hin).
  - split; intros c; apply strip_ends.
Qed.

Lemma fetch_mock_news_title_term_witness :
  exists articles a,
    fetch_mock_news clock_2024_01_15 "All FNO" "Last One Week" = Ok articles
    /\ In a articles
    /\ exists term index,
         title a = "(" ++ "All FNO" ++ ") Market Update: " ++ term
                   ++ " Shows Volatility " ++ index
         /\ ~ In ","%char (list_ascii_of_string term)
         /\ (forall c, first_char term = Some c -> Str.isspace c = false)
         /\ (forall c, last_char term = Some c -> Str.isspace c = false).
Proof.
  assert (H : fetch_mock_news clock_2024_01_15 "All FNO" "Last One Week"
              = Ok (List.map (mock_article "All FNO"
                                "Indian F&O market news, derivative segment"
                                "Last One Week" 738893) [1; 2; 3; 4; 5]))
    by (vm_compute; reflexivity).
  do 2 eexists. split; [exact H|]. split; [left; reflexivity|].
  apply (fetch_mock_news_title_term clock_2024_01_15 "All FNO" "Last One Week" _ _ H).
  left. reflexivity.
Defined.
